(** * weather.py: a shallow embedding of the NWS weather tool server

    The server exposes two tools, [get_alerts] and [get_forecast], built on
    one fetch helper, [make_nws_request], and one formatter, [format_alert].
    Values are the Python objects produced by [response.json()]; faults are
    Python exceptions; the network and stdout are the only effects and are
    made explicit in a small free monad [prog]. *)

From Stdlib Require Import ZArith String Ascii List Bool Lia DecimalString.
From Stdlib Require Import Floats.SpecFloat.
Import ListNotations.

Local Open Scope list_scope.
Local Open Scope string_scope.

(** ** Python values

    [response.json()] yields None, a bool, an int, a float, a str, a list
    or a dict with str keys.  Python's [None] is both the absence value
    returned by [make_nws_request] and the decoding of the JSON text
    [null], so one constructor stands for the two.  A dict is kept as the
    list of its items in insertion order; lookup takes the first item with
    the key. *)

#[warnings="-register-all"]
Inductive json : Type :=
| JNull
| JBool (b : bool)
| JInt (z : Z)
| JFloat (f : spec_float)
| JStr (s : string)
| JList (l : list json)
| JObj (o : list (string * json)).

(** Keys that a [KeyError] can carry: a str, or the slice object of
    [periods[:5]]. *)
Inductive pykey : Type :=
| KStr (s : string)
| KSlice (stop : Z).

(** Exceptions the program can meet.  All of them derive from Python's
    [Exception] except [CancelledError], which derives from
    [BaseException] only.  [InvalidURL] is what [httpx] raises for a str it
    does not take for a URL; [ImportError] and [OSError] are faults of
    setting up or tearing down the client. *)
Inductive exn : Type :=
| KeyError (k : pykey)
| TypeError
| AttributeError
| HTTPStatusError (status : Z)
| TransportError
| TimeoutException
| JSONDecodeError
| InvalidURL
| ImportError
| OSError
| CancelledError.

Definition isinstance_Exception (e : exn) : bool :=
  match e with
  | CancelledError => false
  | _ => true
  end.

Inductive result (A : Type) : Type :=
| Ok (a : A)
| Raised (e : exn).
Arguments Ok {A} a.
Arguments Raised {A} e.

Definition rbind {A B : Type} (r : result A) (f : A -> result B) : result B :=
  match r with
  | Ok a => f a
  | Raised e => Raised e
  end.

Declare Scope result_scope.
Delimit Scope result_scope with result.
Notation "x <- c ;; k" := (rbind c (fun x => k))
  (at level 61, c at next level, right associativity) : result_scope.

(** ** Strings *)

(** The line feed, written ["\n"] in the source. *)
Definition nl : string := String (ascii_of_nat 10) EmptyString.

(** The degree sign of the forecast block, two bytes in UTF-8. *)
Definition deg : string :=
  String (ascii_of_nat 194) (String (ascii_of_nat 176) EmptyString).

(** [sep.join(parts)] *)
Fixpoint str_join (sep : string) (parts : list string) : string :=
  match parts with
  | [] => EmptyString
  | [p] => p
  | p :: rest => p ++ sep ++ str_join sep rest
  end.

(** [s.split("\n")] *)
Fixpoint split_lines (s : string) : list string :=
  match s with
  | EmptyString => [EmptyString]
  | String c s' =>
      if Ascii.eqb c (ascii_of_nat 10) then EmptyString :: split_lines s'
      else match split_lines s' with
           | [] => [String c EmptyString]
           | l :: ls => String c l :: ls
           end
  end.

(** [sub in s] for two strs. *)
Definition str_contains (sub s : string) : bool :=
  match index 0 sub s with
  | Some _ => true
  | None => false
  end.

Fixpoint assoc_lookup {V : Type} (k : string) (o : list (string * V)) : option V :=
  match o with
  | [] => None
  | (k', v) :: o' => if String.eqb k k' then Some v else assoc_lookup k o'
  end.

(** ** The parts of the Python runtime the source leaves to the interpreter
       and to [httpx] *)

Record PyRuntime : Type := {
  (** [repr] of a float, which is also its [str] *)
  float_repr : spec_float -> string;
  (** [repr] of a str, used when a str sits inside a printed list or dict *)
  str_repr : string -> string;
  (** slice objects are hashable from Python 3.12 on *)
  slices_hashable : bool;
  (** the strs [httpx] does not take for a URL: [client.get] raises
      [InvalidURL] for them (a control character, an over-long str, a
      malformed host or port) and sends nothing *)
  url_refused : string -> bool;
  (** the URL of a points lookup is taken whatever the two floats are: the
      [repr] of a float holds only digits, a sign, a point, an exponent or
      the words inf and nan *)
  points_url_accepted :
    forall a b : spec_float,
      url_refused ("https://api.weather.gov/points/" ++ float_repr a ++ ","
                   ++ float_repr b) = false
}.

Section Python.

Context (rt : PyRuntime).

Definition int_str (z : Z) : string := NilZero.string_of_int (Z.to_int z).

Fixpoint py_repr (v : json) : string :=
  match v with
  | JNull => "None"
  | JBool true => "True"
  | JBool false => "False"
  | JInt z => int_str z
  | JFloat f => float_repr rt f
  | JStr s => str_repr rt s
  | JList l => "[" ++ str_join ", " (map py_repr l) ++ "]"
  | JObj o =>
      "{" ++ str_join ", "
               (map (fun kv => match kv with
                               | (k, x) => str_repr rt k ++ ": " ++ py_repr x
                               end) o) ++ "}"
  end.

(** What an f-string puts in place of [{v}]: [str(v)]. *)
Definition py_str (v : json) : string :=
  match v with
  | JStr s => s
  | _ => py_repr v
  end.

(** [bool(v)], the test behind [if not v]. *)
Definition py_truthy (v : json) : bool :=
  match v with
  | JNull => false
  | JBool b => b
  | JInt z => negb (Z.eqb z 0)
  | JFloat (S754_zero _) => false
  | JFloat _ => true
  | JStr s => negb (String.eqb s EmptyString)
  | JList l => match l with [] => false | _ => true end
  | JObj o => match o with [] => false | _ => true end
  end.

(** [v[k]] for a str key [k]. *)
Definition py_getitem (v : json) (k : string) : result json :=
  match v with
  | JObj o => match assoc_lookup k o with
              | Some x => Ok x
              | None => Raised (KeyError (KStr k))
              end
  | _ => Raised TypeError
  end.

(** [k in v] for a str [k]. *)
Definition py_contains (k : string) (v : json) : result bool :=
  match v with
  | JObj o => Ok (match assoc_lookup k o with Some _ => true | None => false end)
  | JList l => Ok (existsb (fun x => match x with
                                     | JStr s => String.eqb k s
                                     | _ => false
                                     end) l)
  | JStr s => Ok (str_contains k s)
  | _ => Raised TypeError
  end.

(** [v.get(k, default)] *)
Definition py_get (v : json) (k : string) (default : json) : result json :=
  match v with
  | JObj o => Ok (match assoc_lookup k o with Some x => x | None => default end)
  | _ => Raised AttributeError
  end.

Fixpoint str_chars (s : string) : list json :=
  match s with
  | EmptyString => []
  | String c s' => JStr (String c EmptyString) :: str_chars s'
  end.

(** The items a [for] loop or a comprehension draws from [v]. *)
Definition py_iter (v : json) : result (list json) :=
  match v with
  | JList l => Ok l
  | JObj o => Ok (map (fun kv => JStr (fst kv)) o)
  | JStr s => Ok (str_chars s)
  | _ => Raised TypeError
  end.

(** [v[:n]] *)
Definition py_slice_to (v : json) (n : nat) : result json :=
  match v with
  | JList l => Ok (JList (firstn n l))
  | JStr s => Ok (JStr (substring 0 n s))
  | JObj _ => Raised (if slices_hashable rt
                      then KeyError (KSlice (Z.of_nat n)) else TypeError)
  | _ => Raised TypeError
  end.

Fixpoint rmap {A B : Type} (f : A -> result B) (l : list A) : result (list B) :=
  match l with
  | [] => Ok []
  | a :: l' =>
      match f a with
      | Raised e => Raised e
      | Ok b => match rmap f l' with
                | Raised e => Raised e
                | Ok bs => Ok (b :: bs)
                end
      end
  end.

End Python.

(** ** Effects: the HTTP exchange and stdout *)

Record request : Type := {
  req_url : string;
  req_headers : list (string * string);
  req_timeout : Z   (* seconds *)
}.

(** An HTTP response as far as the program looks at it: the status code,
    and what [response.json()] makes of the body ([None] when the body
    does not decode and [json()] raises). *)
Record response : Type := {
  status_code : Z;
  body_json : option json
}.

Inductive prog (A : Type) : Type :=
| Ret (a : A)
| Throw (e : exn)
| Print (line : string) (k : prog A)
| HttpGet (rq : request) (k : result response -> prog A)
| OpenClient (k : result unit -> prog A)
| CloseClient (k : result unit -> prog A).
Arguments Ret {A} a.
Arguments Throw {A} e.
Arguments Print {A} line k.
Arguments HttpGet {A} rq k.
Arguments OpenClient {A} k.
Arguments CloseClient {A} k.

Fixpoint bind {A B : Type} (p : prog A) (f : A -> prog B) : prog B :=
  match p with
  | Ret a => f a
  | Throw e => Throw e
  | Print line k => Print line (bind k f)
  | HttpGet rq k => HttpGet rq (fun o => bind (k o) f)
  | OpenClient k => OpenClient (fun o => bind (k o) f)
  | CloseClient k => CloseClient (fun o => bind (k o) f)
  end.

Declare Scope prog_scope.
Delimit Scope prog_scope with prog.
Notation "x <- c ;; k" := (bind c (fun x => k))
  (at level 61, c at next level, right associativity) : prog_scope.

Definition lift {A : Type} (r : result A) : prog A :=
  match r with
  | Ok a => Ret a
  | Raised e => Throw e
  end.

(** [try: p  except Exception: h] *)
Fixpoint try_except_Exception {A : Type} (p : prog A) (h : prog A) : prog A :=
  match p with
  | Ret a => Ret a
  | Throw e => if isinstance_Exception e then h else Throw e
  | Print line k => Print line (try_except_Exception k h)
  | HttpGet rq k => HttpGet rq (fun o => try_except_Exception (k o) h)
  | OpenClient k => OpenClient (fun o => try_except_Exception (k o) h)
  | CloseClient k => CloseClient (fun o => try_except_Exception (k o) h)
  end.

(** Leaving an [async with] block: the client is closed whether the block
    ends with a value or with a fault, and a fault of the closing takes
    the place of either. *)
Fixpoint then_close {A : Type} (p : prog A) : prog A :=
  match p with
  | Ret a => CloseClient (fun c => match c with
                                   | Ok _ => Ret a
                                   | Raised e' => Throw e'
                                   end)
  | Throw e => CloseClient (fun c => match c with
                                     | Ok _ => Throw e
                                     | Raised e' => Throw e'
                                     end)
  | Print line k => Print line (then_close k)
  | HttpGet rq k => HttpGet rq (fun o => then_close (k o))
  | OpenClient k => OpenClient (fun o => then_close (k o))
  | CloseClient k => CloseClient (fun o => then_close (k o))
  end.

(** [async with httpx.AsyncClient() as client: body]: a fault of opening
    the client ends the statement before the body starts. *)
Definition async_with_client {A : Type} (body : prog A) : prog A :=
  OpenClient (fun c => match c with
                       | Ok _ => then_close body
                       | Raised e => Throw e
                       end).

(** What a run leaves behind, oldest first. *)
Inductive event : Type :=
| EvPrint (line : string)
| EvGet (rq : request).

(** Whether an [httpx.AsyncClient] can be set up and torn down in the
    process the server runs in; taken to be the same at every call. *)
Inductive client_health : Type :=
| Healthy
| OpenFails (e : exn)
| CloseFails (e : exn).

(** What the program runs against: the state of the client library, and
    the upstream service with the network in front of it, which, given
    what has happened so far and a request, gives a response or raises a
    fault. *)
Record upstream : Type := {
  health : client_health;
  answer : list event -> request -> result response
}.

(** The outcome of one [async with] exchange around a request that is
    sent: the request was answered and the client closed, or the client
    failed to open and nothing was sent, or the request was answered and
    the closing failed. *)
Inductive exchange : Type :=
| Answered (o : result response)
| OpenFault (e : exn)
| CloseFault (o : result response) (e : exn).

Definition exchange_of (w : upstream) : list event -> request -> exchange :=
  fun tr rq =>
    match health w with
    | Healthy => Answered (answer w tr rq)
    | OpenFails e => OpenFault e
    | CloseFails e => CloseFault (answer w tr rq) e
    end.

(** [w tr rq] is the outcome of the exchange, and an answer stands for the
    exchange that ended with it: [w tr rq = Ok r] says that the client
    opened, the request [rq] was answered with [r], and the client
    closed. *)
Coercion exchange_of : upstream >-> Funclass.
#[warning="-uniform-inheritance"]
Coercion Answered : result >-> exchange.

Fixpoint run {A : Type} (w : upstream) (tr : list event) (p : prog A)
  : list event * result A :=
  match p with
  | Ret a => (tr, Ok a)
  | Throw e => (tr, Raised e)
  | Print line k => run w (tr ++ [EvPrint line])%list k
  | HttpGet rq k => run w (tr ++ [EvGet rq])%list (k (answer w tr rq))
  | OpenClient k =>
      run w tr (k (match health w with
                   | OpenFails e => Raised e
                   | _ => Ok tt
                   end))
  | CloseClient k =>
      run w tr (k (match health w with
                   | CloseFails e => Raised e
                   | _ => Ok tt
                   end))
  end.

(** The requests made during a run. *)
Fixpoint gets (tr : list event) : list request :=
  match tr with
  | [] => []
  | EvGet rq :: tr' => rq :: gets tr'
  | EvPrint _ :: tr' => gets tr'
  end.

(** ** weather.py *)

Definition NWS_API_BASE : string := "https://api.weather.gov".
Definition USER_AGENT : string := "weather-app/1.0".

(** [httpx]'s [client.get(url, headers=..., timeout=...)]: a [url] that is
    not a str is refused with a [TypeError], and a str that [httpx] does
    not take for a URL with [InvalidURL], before anything is sent. *)
Definition client_get (rt : PyRuntime) (url : json)
  (headers : list (string * string)) (timeout : Z) : prog response :=
  match url with
  | JStr u =>
      if url_refused rt u then Throw InvalidURL
      else HttpGet {| req_url := u; req_headers := headers;
                      req_timeout := timeout |}
                   (fun o => lift o)
  | _ => Throw TypeError
  end.

(** [httpx]'s [response.raise_for_status()]: any status outside 200..299
    raises. *)
Definition raise_for_status (r : response) : result unit :=
  if (200 <=? status_code r)%Z && (status_code r <=? 299)%Z
  then Ok tt
  else Raised (HTTPStatusError (status_code r)).

(** [response.json()] *)
Definition response_json (r : response) : result json :=
  match body_json r with
  | Some j => Ok j
  | None => Raised JSONDecodeError
  end.

(** The [try] covers the three calls and sits inside the [async with],
    which opens and closes the client outside of it. *)
Definition make_nws_request (rt : PyRuntime) (url : json) : prog json :=
  let headers := [("User-Agent", USER_AGENT); ("Accept", "application/geo+json")] in
  async_with_client
    (try_except_Exception
       (response <- client_get rt url headers 30 ;;
        _ <- lift (raise_for_status response) ;;
        lift (response_json response))%prog
       (Ret JNull)).

Section Tools.

Context (rt : PyRuntime).

Definition format_alert (feature : json) : result string :=
  (props <- py_getitem feature "properties" ;;
   event <- py_get props "event" (JStr "Unknown") ;;
   areaDesc <- py_get props "areaDesc" (JStr "Unknown") ;;
   severity <- py_get props "severity" (JStr "Unknown") ;;
   description <- py_get props "description" (JStr "No description available") ;;
   instruction <- py_get props "instruction" (JStr "No specific instructions provided") ;;
   Ok ("Event: " ++ py_str rt event ++ nl ++
       "Area: " ++ py_str rt areaDesc ++ nl ++
       "Severity: " ++ py_str rt severity ++ nl ++
       "Description: " ++ py_str rt description ++ nl ++
       "Instructions: " ++ py_str rt instruction))%result.

(** The separator of both tools, ["\n---\n"]. *)
Definition SEP : string := nl ++ "---" ++ nl.

Definition MSG_ALERTS_UNAVAILABLE : string :=
  "Unable to fetch alerts or no alerts found.".
Definition MSG_NO_ALERTS : string := "No active alerts for this state.".
Definition MSG_POINTS_UNAVAILABLE : string :=
  "Unable to fetch forecast data for this location.".
Definition MSG_FORECAST_UNAVAILABLE : string :=
  "Unable to fetch detailed forecast.".

(** Lines 48-53 of [get_alerts]: what is done with the fetched [data]. *)
Definition alerts_of (data : json) : result string :=
  (no_features <-
     (if negb (py_truthy data) then Ok true
      else (b <- py_contains "features" data ;; Ok (negb b))) ;;
   if (no_features : bool) then Ok MSG_ALERTS_UNAVAILABLE
   else
     features <- py_getitem data "features" ;;
     if negb (py_truthy features) then Ok MSG_NO_ALERTS
     else
       features' <- py_getitem data "features" ;;
       items <- py_iter features' ;;
       alerts <- rmap format_alert items ;;
       Ok (str_join SEP alerts))%result.

Definition alerts_url (state : string) : string :=
  NWS_API_BASE ++ "/alerts/active/area/" ++ state.

Definition get_alerts (state : string) : prog string :=
  Print ("Getting alerts for " ++ state)
    (data <- make_nws_request rt (JStr (alerts_url state)) ;;
     lift (alerts_of data))%prog.

(** The body of the loop of [get_forecast], lines 70-75: one forecast
    block. *)
Definition format_period (period : json) : result string :=
  (name <- py_getitem period "name" ;;
   temperature <- py_getitem period "temperature" ;;
   temperatureUnit <- py_getitem period "temperatureUnit" ;;
   windSpeed <- py_getitem period "windSpeed" ;;
   windDirection <- py_getitem period "windDirection" ;;
   detailedForecast <- py_getitem period "detailedForecast" ;;
   Ok (py_str rt name ++ ":" ++ nl ++
       "  Temperature: " ++ py_str rt temperature ++ deg ++
                            py_str rt temperatureUnit ++ nl ++
       "  Wind: " ++ py_str rt windSpeed ++ " " ++ py_str rt windDirection ++ nl ++
       "  Forecast: " ++ py_str rt detailedForecast))%result.

(** Lines 67-77 of [get_forecast]: what is done with [forecast_data]. *)
Definition forecast_of (forecast_data : json) : result string :=
  (properties <- py_getitem forecast_data "properties" ;;
   periods <- py_getitem properties "periods" ;;
   first5 <- py_slice_to rt periods 5 ;;
   items <- py_iter first5 ;;
   forecasts <- rmap format_period items ;;
   Ok (str_join SEP forecasts))%result.

(** Line 63: the forecast URL found in the points response. *)
Definition forecast_url_of (points_data : json) : result json :=
  (properties <- py_getitem points_data "properties" ;;
   py_getitem properties "forecast")%result.

Definition points_url (latitude longitude : spec_float) : string :=
  NWS_API_BASE ++ "/points/" ++ float_repr rt latitude ++ "," ++
  float_repr rt longitude.

Definition get_forecast (latitude longitude : spec_float) : prog string :=
  (points_data <- make_nws_request rt (JStr (points_url latitude longitude)) ;;
   if negb (py_truthy points_data) then Ret MSG_POINTS_UNAVAILABLE
   else
     forecast_url <- lift (forecast_url_of points_data) ;;
     forecast_data <- make_nws_request rt forecast_url ;;
     if negb (py_truthy forecast_data) then Ret MSG_FORECAST_UNAVAILABLE
     else lift (forecast_of forecast_data))%prog.

End Tools.

(** ** Vocabulary of the statements *)

(** The request [make_nws_request] sends for a str [url]. *)
Definition nws_request (url : string) : request :=
  {| req_url := url;
     req_headers := [("User-Agent", USER_AGENT); ("Accept", "application/geo+json")];
     req_timeout := 30 |}.

(** What [make_nws_request] makes of the answer to its request. *)
Definition fetched (o : result response) : result json :=
  match o with
  | Raised e => if isinstance_Exception e then Ok JNull else Raised e
  | Ok r =>
      if (200 <=? status_code r)%Z && (status_code r <=? 299)%Z
      then match body_json r with
           | Some j => Ok j
           | None => Ok JNull
           end
      else Ok JNull
  end.


(** [v] is a dict with the key [k]. *)
Definition has_key (k : string) (v : json) : bool :=
  match v with
  | JObj o => match assoc_lookup k o with Some _ => true | None => false end
  | _ => false
  end.

(** The points response carries [properties.forecast]. *)
Definition has_forecast_url (points_data : json) : bool :=
  match points_data with
  | JObj o => match assoc_lookup "properties" o with
              | Some properties => has_key "forecast" properties
              | None => false
              end
  | _ => false
  end.

(** The six fields the forecast block reads from a period, in the order
    the source reads them. *)
Definition period_fields : list string :=
  ["name"; "temperature"; "temperatureUnit"; "windSpeed"; "windDirection";
   "detailedForecast"].

Definition well_formed_period (period : json) : bool :=
  forallb (fun k => has_key k period) period_fields.

(** Number of lines of [s] that are the three dashes of the separator. *)
Definition sep_lines (s : string) : nat :=
  count_occ string_dec (split_lines s) "---".

Fixpoint no_newline (s : string) : bool :=
  match s with
  | EmptyString => true
  | String c s' => negb (Ascii.eqb c (ascii_of_nat 10)) && no_newline s'
  end.

Fixpoint total (l : list nat) : nat :=
  match l with
  | [] => 0
  | n :: l' => n + total l'
  end.

(** ** Sample inputs *)

(** The coordinates of the sample scenario, 39.7456 and -97.0892, as the
    binary64 floats Python reads them as. *)
Definition sample_lat : spec_float := S754_finite false 5593695917175525 (-47).
Definition sample_lon : spec_float := S754_finite true 6832045077214056 (-46).

(** How the sample runtime prints a float: the two sample coordinates the
    way Python does, any other finite float in exact binary notation. *)
Definition sample_float_repr (f : spec_float) : string :=
  match f with
  | S754_zero false => "0.0"
  | S754_zero true => "-0.0"
  | S754_infinity false => "inf"
  | S754_infinity true => "-inf"
  | S754_nan => "nan"
  | S754_finite s m e =>
      if negb s && (m =? 5593695917175525)%positive && (e =? -47)%Z
      then "39.7456"
      else if s && (m =? 6832045077214056)%positive && (e =? -46)%Z
      then "-97.0892"
      else (if s then "-" else EmptyString) ++ int_str (Zpos m) ++ "*2**"
           ++ int_str e
  end.

(** An ASCII control character; [httpx] refuses a URL that holds one. *)
Definition is_control (c : ascii) : bool :=
  (nat_of_ascii c <? 32)%nat || (nat_of_ascii c =? 127)%nat.

Fixpoint has_control_char (s : string) : bool :=
  match s with
  | EmptyString => false
  | String c s' => is_control c || has_control_char s'
  end.

(** A runtime to evaluate examples with.  Of the URLs [httpx] refuses it
    knows those with a control character. *)
Definition sample_rt : PyRuntime.
Proof.
  refine {| float_repr := sample_float_repr;
            str_repr := fun s => "'" ++ s ++ "'";
            slices_hashable := true;
            url_refused := has_control_char;
            points_url_accepted := _ |}.
  assert (Happ : forall a b, has_control_char (a ++ b)
                             = has_control_char a || has_control_char b).
  { induction a as [| c a IH]; intros b; simpl; [reflexivity |].
    rewrite IH. apply orb_assoc. }
  assert (Huint : forall u, has_control_char (NilEmpty.string_of_uint u) = false).
  { induction u; simpl; try rewrite IHu; reflexivity. }
  assert (Hint : forall z, has_control_char (int_str z) = false).
  { intros z. unfold int_str.
    destruct (Z.to_int z) as [u | u]; simpl; destruct u; simpl;
      try rewrite Huint; reflexivity. }
  assert (Hfloat : forall f, has_control_char (sample_float_repr f) = false).
  { intros f.
    assert (Hfin : forall s m e,
               has_control_char ((if s : bool then "-" else EmptyString)
                                 ++ int_str (Zpos m) ++ "*2**" ++ int_str e)
               = false).
    { intros s m e. rewrite !Happ, !Hint. destruct s; reflexivity. }
    destruct f as [s | s | | s m e]; try (destruct s; reflexivity);
      try reflexivity.
    unfold sample_float_repr.
    destruct (negb s && (m =? 5593695917175525)%positive && (e =? -47)%Z);
      [reflexivity |].
    destruct (s && (m =? 6832045077214056)%positive && (e =? -46)%Z);
      [reflexivity | apply Hfin]. }
  intros a b. rewrite !Happ, !Hfloat. reflexivity.
Defined.

(** No answer from the network. *)
Definition upstream_down : upstream :=
  {| health := Healthy; answer := fun _ _ => Raised TransportError |}.

(** Every request is answered 200 with a body decoding to [j]. *)
Definition upstream_const (j : json) : upstream :=
  {| health := Healthy;
     answer := fun _ _ => Ok {| status_code := 200; body_json := Some j |} |}.

(** The first request is answered with [points], later ones with
    [forecast]. *)
Definition upstream_two (points forecast : json) : upstream :=
  {| health := Healthy;
     answer := fun tr _ =>
       match gets tr with
       | [] => Ok {| status_code := 200; body_json := Some points |}
       | _ => Ok {| status_code := 200; body_json := Some forecast |}
       end |}.

Definition sample_period (name : string) : json :=
  JObj [("name", JStr name); ("temperature", JInt 72);
        ("temperatureUnit", JStr "F"); ("windSpeed", JStr "5 mph");
        ("windDirection", JStr "NW"); ("detailedForecast", JStr "Sunny.")].

Definition sample_forecast_url : string :=
  "https://api.weather.gov/gridpoints/TOP/31,80/forecast".

Definition sample_points : json :=
  JObj [("properties", JObj [("forecast", JStr sample_forecast_url)])].

Definition sample_forecast (periods : list json) : json :=
  JObj [("properties", JObj [("periods", JList periods)])].

(** The lines of a joined output as the joining rule describes them: the
    lines of each block, with one line of three dashes between two
    consecutive blocks and none before the first or after the last. *)
Fixpoint block_lines (blocks : list string) : list string :=
  match blocks with
  | [] => [EmptyString]
  | [b] => split_lines b
  | b :: rest => (split_lines b ++ "---" :: block_lines rest)%list
  end.

(** The six fields of [period] are present and none prints with a line
    feed inside. *)
Definition plain_period (rt : PyRuntime) (period : json) : bool :=
  forallb (fun k => match py_getitem period k with
                    | Ok v => no_newline (py_str rt v)
                    | Raised _ => false
                    end) period_fields.

(** What the alert block prints for the field [k] of [props]: the field,
    or [default] when [props] has no such key. *)
Definition alert_field (rt : PyRuntime) (props : list (string * json))
  (k default : string) : string :=
  py_str rt (match assoc_lookup k props with
             | Some x => x
             | None => JStr default
             end).

(** The five entries of an alert block, in order. *)
Definition alert_lines (rt : PyRuntime) (props : list (string * json))
  : list string :=
  ["Event: " ++ alert_field rt props "event" "Unknown";
   "Area: " ++ alert_field rt props "areaDesc" "Unknown";
   "Severity: " ++ alert_field rt props "severity" "Unknown";
   "Description: " ++ alert_field rt props "description" "No description available";
   "Instructions: " ++
     alert_field rt props "instruction" "No specific instructions provided"].

Definition alert_keys : list string :=
  ["event"; "areaDesc"; "severity"; "description"; "instruction"].

(** An alert whose description runs over two lines. *)
Definition sample_alert_two_line_description : json :=
  JObj [("properties",
         JObj [("event", JStr "Flood Warning");
               ("description",
                JStr ("Flooding is occurring." ++ nl ++ "Move to higher ground."))])].

(** The faults a missing required field of a period can raise. *)
Definition period_fault (e : exn) : Prop :=
  e = TypeError \/ exists k, In k period_fields /\ e = KeyError (KStr k).

(** The traces of a forecast lookup at the sample coordinates: after the
    points request, and after the forecast request. *)
Definition sample_trace1 : list event :=
  [EvGet (nws_request (points_url sample_rt sample_lat sample_lon))].

Definition sample_trace2 : list event :=
  (sample_trace1 ++ [EvGet (nws_request sample_forecast_url)])%list.

Definition five_periods : list json :=
  map sample_period ["Today"; "Tonight"; "Monday"; "Monday Night"; "Tuesday"].

Definition seven_periods : list json :=
  (five_periods ++ map sample_period ["Tuesday Night"; "Wednesday"])%list.

(** ** The prompt *)

(** [plan_the_evening], lines 81-83, as the [def] has it. *)
Definition plan_the_evening (text : string) : string :=
  "Plan the evening based on the weather forecast:" ++ nl ++ nl ++ text.

(** The forecast response carries [properties.periods]. *)
Definition has_periods (forecast_data : json) : bool :=
  match forecast_data with
  | JObj o => match assoc_lookup "properties" o with
              | Some properties => has_key "periods" properties
              | None => false
              end
  | _ => false
  end.

(** [v] is a JSON number or boolean: a value with neither keys nor
    items. *)
Definition is_scalar (v : json) : bool :=
  match v with
  | JBool _ | JInt _ | JFloat _ => true
  | _ => false
  end.

(** [s] starts with [p]. *)
Definition starts_with (p s : string) : Prop := exists rest, s = p ++ rest.

(** An alert as the upstream sends it, with a null instruction. *)
Definition sample_alert (event area : string) : json :=
  JObj [("id", JStr "urn:oid:2.49.0.1.840.0");
        ("properties",
         JObj [("event", JStr event); ("areaDesc", JStr area);
               ("severity", JStr "Moderate");
               ("description", JStr "Gusty winds expected.");
               ("instruction", JNull)])].

(** The first request is answered 200 with [points], later ones with
    [second]. *)
Definition upstream_then (points : json) (second : result response) : upstream :=
  {| health := Healthy;
     answer := fun tr _ =>
       match gets tr with
       | [] => Ok {| status_code := 200; body_json := Some points |}
       | _ => second
       end |}.

(** The task is cancelled while the request is awaited. *)
Definition upstream_cancelled : upstream :=
  {| health := Healthy; answer := fun _ _ => Raised CancelledError |}.

(** The client cannot be set up: a SOCKS proxy is configured and the
    package that serves it is not installed. *)
Definition upstream_no_client : upstream :=
  {| health := OpenFails ImportError;
     answer := fun _ _ => Ok {| status_code := 200; body_json := Some (JObj []) |} |}.

(** A state code with a control character in it. *)
Definition state_with_control : string := String (ascii_of_nat 1) "CA".

(** The trace of one call of [get_alerts] for California. *)
Definition sample_alerts_trace : list event :=
  [EvPrint "Getting alerts for CA"; EvGet (nws_request (alerts_url "CA"))].

Definition three_alerts : list json :=
  [sample_alert "Wind Advisory" "Marin"; sample_alert "Flood Watch" "Napa";
   sample_alert "Wind Advisory" "Marin"].

(** ** Strings and lines *)

Lemma str_app_assoc (a b c : string) : (a ++ b) ++ c = a ++ (b ++ c).
Proof. induction a as [| x a IH]; simpl; congruence. Qed.

Lemma split_lines_cons (s : string) : exists l ls, split_lines s = l :: ls.
Proof.
  destruct s as [| c s]; simpl.
  - eauto.
  - destruct (Ascii.eqb c (ascii_of_nat 10)); [eauto |].
    destruct (split_lines s); eauto.
Qed.

(** A line feed between two strings separates their lines. *)
Lemma split_lines_app_nl (a b : string) :
  split_lines (a ++ nl ++ b) = (split_lines a ++ split_lines b)%list.
Proof.
  induction a as [| c a IH].
  - reflexivity.
  - cbn [append split_lines]. rewrite IH.
    destruct (Ascii.eqb c (ascii_of_nat 10)); [reflexivity |].
    destruct (split_lines_cons a) as [l [ls ->]]. reflexivity.
Qed.

Lemma split_lines_no_newline (s : string) :
  no_newline s = true -> split_lines s = [s].
Proof.
  induction s as [| c s IH]; [reflexivity |].
  cbn [no_newline split_lines]. intros H. apply andb_prop in H.
  destruct H as [Hc Hs]. apply negb_true_iff in Hc. rewrite Hc, (IH Hs).
  reflexivity.
Qed.

Lemma no_newline_app (a b : string) :
  no_newline (a ++ b) = no_newline a && no_newline b.
Proof.
  induction a as [| c a IH]; [reflexivity |].
  cbn [append no_newline]. rewrite IH. apply andb_assoc.
Qed.

(** The lines of [nl.join(ls)] are [ls] when no element holds a line feed. *)
Lemma split_lines_join_nl (l : string) (ls : list string) :
  forallb no_newline (l :: ls) = true ->
  split_lines (str_join nl (l :: ls)) = l :: ls.
Proof.
  revert l. induction ls as [| l' ls IH]; intros l H.
  - cbn [forallb] in H. apply andb_prop in H. destruct H as [H _].
    apply split_lines_no_newline. exact H.
  - cbn [forallb] in H. apply andb_prop in H. destruct H as [Hl Hrest].
    change (str_join nl (l :: l' :: ls)) with (l ++ nl ++ str_join nl (l' :: ls)).
    rewrite split_lines_app_nl, (split_lines_no_newline l Hl), (IH l' Hrest).
    reflexivity.
Qed.

Lemma str_join_SEP_cons (b b' : string) (rest : list string) :
  str_join SEP (b :: b' :: rest)
  = b ++ nl ++ "---" ++ nl ++ str_join SEP (b' :: rest).
Proof.
  change (str_join SEP (b :: b' :: rest))
    with (b ++ SEP ++ str_join SEP (b' :: rest)).
  unfold SEP. rewrite !str_app_assoc. reflexivity.
Qed.

Lemma split_lines_join_SEP (blocks : list string) :
  split_lines (str_join SEP blocks) = block_lines blocks.
Proof.
  induction blocks as [| b rest IH]; [reflexivity |].
  destruct rest as [| b' rest]; [reflexivity |].
  rewrite str_join_SEP_cons, split_lines_app_nl, split_lines_app_nl, IH.
  reflexivity.
Qed.

Lemma sep_lines_join_SEP (blocks : list string) :
  sep_lines (str_join SEP blocks)
  = length blocks - 1 + total (map sep_lines blocks).
Proof.
  unfold sep_lines. rewrite split_lines_join_SEP.
  induction blocks as [| b rest IH]; [reflexivity |].
  destruct rest as [| b' rest].
  - cbn [block_lines map total length]. lia.
  - change (block_lines (b :: b' :: rest))
      with (split_lines b ++ "---" :: block_lines (b' :: rest))%list.
    rewrite count_occ_app, count_occ_cons_eq by reflexivity.
    rewrite IH. cbn [map total length]. lia.
Qed.

Lemma colon_line_not_sep (s : string) : s ++ ":" <> "---".
Proof.
  destruct s as [| c1 [| c2 [| c3 [| c4 s]]]]; simpl; discriminate.
Qed.

Lemma forallb_firstn {A : Type} (f : A -> bool) (n : nat) (l : list A) :
  forallb f l = true -> forallb f (firstn n l) = true.
Proof.
  revert n. induction l as [| a l IH]; intros n H.
  - destruct n; reflexivity.
  - destruct n; [reflexivity |]. cbn [forallb firstn] in *.
    apply andb_prop in H. destruct H as [Ha Hl]. rewrite Ha, (IH n Hl).
    reflexivity.
Qed.

Lemma rmap_Forall2 {A B : Type} (f : A -> result B) (l : list A) :
  forall bs, rmap f l = Ok bs -> Forall2 (fun a b => f a = Ok b) l bs.
Proof.
  induction l as [| a l IH]; intros bs H; simpl in H.
  - inversion H. constructor.
  - destruct (f a) as [b | e] eqn:Hfa; [| discriminate].
    destruct (rmap f l) as [bs' | e]; [| discriminate].
    inversion H; subst. constructor; [exact Hfa | apply IH; reflexivity].
Qed.

Lemma rmap_total {A B : Type} (f : A -> result B) (l : list A) :
  (forall a, In a l -> exists b, f a = Ok b) ->
  exists bs, rmap f l = Ok bs /\ length bs = length l.
Proof.
  induction l as [| a l IH]; intros H.
  - exists []. split; reflexivity.
  - destruct (H a (or_introl eq_refl)) as [b Hb].
    destruct IH as [bs [Hbs Hlen]].
    { intros a' Ha'. apply H. right. exact Ha'. }
    exists (b :: bs). simpl. rewrite Hb, Hbs, Hlen. split; reflexivity.
Qed.

(** The layout of one forecast block: four lines, none of them the
    separator, when the six printed fields hold no line feed. *)
Lemma period_block_lines (s1 s2 s3 s4 s5 s6 : string) :
  no_newline s1 = true -> no_newline s2 = true -> no_newline s3 = true ->
  no_newline s4 = true -> no_newline s5 = true -> no_newline s6 = true ->
  length (split_lines
            (s1 ++ ":" ++ nl ++
             "  Temperature: " ++ s2 ++ deg ++ s3 ++ nl ++
             "  Wind: " ++ s4 ++ " " ++ s5 ++ nl ++
             "  Forecast: " ++ s6)) = 4 /\
  sep_lines (s1 ++ ":" ++ nl ++
             "  Temperature: " ++ s2 ++ deg ++ s3 ++ nl ++
             "  Wind: " ++ s4 ++ " " ++ s5 ++ nl ++
             "  Forecast: " ++ s6) = 0.
Proof.
  intros H1 H2 H3 H4 H5 H6.
  assert (Hshape :
    s1 ++ ":" ++ nl ++
    "  Temperature: " ++ s2 ++ deg ++ s3 ++ nl ++
    "  Wind: " ++ s4 ++ " " ++ s5 ++ nl ++
    "  Forecast: " ++ s6
    = str_join nl
        [s1 ++ ":";
         "  Temperature: " ++ s2 ++ deg ++ s3;
         "  Wind: " ++ s4 ++ " " ++ s5;
         "  Forecast: " ++ s6]).
  { cbn [str_join]. rewrite !str_app_assoc. reflexivity. }
  rewrite Hshape. unfold sep_lines. rewrite split_lines_join_nl.
  - split; [reflexivity |].
    cbn [count_occ].
    destruct (string_dec (s1 ++ ":") "---") as [E | _];
      [exfalso; exact (colon_line_not_sep _ E) |].
    repeat match goal with
           | |- context [string_dec ?a ?b] =>
               destruct (string_dec a b) as [E | _]; [discriminate E |]
           end.
    reflexivity.
  - cbn [forallb]. rewrite !no_newline_app, H1, H2, H3, H4, H5, H6.
    reflexivity.
Qed.


(** ** Running programs *)

Lemma run_bind {A B : Type} (w : upstream) (p : prog A) (f : A -> prog B) :
  forall tr,
    run w tr (bind p f) =
    match run w tr p with
    | (tr', Ok a) => run w tr' (f a)
    | (tr', Raised e) => (tr', Raised e)
    end.
Proof.
  induction p as [a | e | line k IH | rq k IH | k IH | k IH]; intros tr; simpl.
  - reflexivity.
  - reflexivity.
  - apply IH.
  - apply IH.
  - apply IH.
  - apply IH.
Qed.

Lemma run_lift {A : Type} (w : upstream) (tr : list event) (r : result A) :
  run w tr (lift r) = (tr, r).
Proof. destruct r; reflexivity. Qed.

Lemma gets_app (t1 t2 : list event) : gets (t1 ++ t2)%list = (gets t1 ++ gets t2)%list.
Proof.
  induction t1 as [| [line | rq] t1 IH]; simpl; try rewrite IH; reflexivity.
Qed.

(** An exchange that was answered was made with a client that opens and
    closes. *)
Lemma answered_inv (w : upstream) (tr : list event) (rq : request)
  (o : result response) :
  w tr rq = Answered o -> health w = Healthy /\ answer w tr rq = o.
Proof.
  unfold exchange_of. destruct (health w); intros H; try discriminate H.
  injection H as H. split; [reflexivity | exact H].
Qed.

Section FetchFacts.

Context (rt : PyRuntime).

Lemma points_url_ok (latitude longitude : spec_float) :
  url_refused rt (points_url rt latitude longitude) = false.
Proof. exact (points_url_accepted rt latitude longitude). Qed.

(** The fetch of a str [url], case by case: the client does not open; the
    URL is refused; the request is sent. *)
Lemma run_make_nws_request (w : upstream) (tr : list event) (url : string) :
  run w tr (make_nws_request rt (JStr url)) =
  match health w with
  | OpenFails e => (tr, Raised e)
  | Healthy =>
      if url_refused rt url then (tr, Ok JNull)
      else ((tr ++ [EvGet (nws_request url)])%list,
            fetched (answer w tr (nws_request url)))
  | CloseFails e =>
      if url_refused rt url then (tr, Raised e)
      else ((tr ++ [EvGet (nws_request url)])%list, Raised e)
  end.
Proof.
  unfold make_nws_request, async_with_client, client_get. cbn [run].
  destruct (health w) as [| e | e] eqn:Hh; [| reflexivity |].
  - destruct (url_refused rt url); cbn; rewrite ?Hh; [reflexivity |].
    fold (nws_request url). unfold fetched, raise_for_status, response_json.
    destruct (answer w tr (nws_request url)) as [r | e]; cbn.
    + destruct ((200 <=? status_code r)%Z && (status_code r <=? 299)%Z); cbn.
      * destruct (body_json r); cbn; rewrite Hh; reflexivity.
      * rewrite Hh. reflexivity.
    + destruct (isinstance_Exception e); cbn; rewrite Hh; reflexivity.
  - destruct (url_refused rt url); cbn; rewrite ?Hh; [reflexivity |].
    fold (nws_request url). unfold raise_for_status, response_json.
    destruct (answer w tr (nws_request url)) as [r | e']; cbn.
    + destruct ((200 <=? status_code r)%Z && (status_code r <=? 299)%Z); cbn.
      * destruct (body_json r); cbn; rewrite Hh; reflexivity.
      * rewrite Hh. reflexivity.
    + destruct (isinstance_Exception e'); cbn; rewrite Hh; reflexivity.
Qed.

Lemma run_make_nws_request_sent (w : upstream) (tr : list event) (url : string) :
  health w = Healthy ->
  url_refused rt url = false ->
  run w tr (make_nws_request rt (JStr url)) =
  ((tr ++ [EvGet (nws_request url)])%list, fetched (answer w tr (nws_request url))).
Proof. intros Hh Hu. rewrite run_make_nws_request, Hh, Hu. reflexivity. Qed.

Lemma run_make_nws_request_not_str (w : upstream) (tr : list event) (url : json) :
  (forall u, url <> JStr u) ->
  run w tr (make_nws_request rt url) =
  match health w with
  | Healthy => (tr, Ok JNull)
  | OpenFails e => (tr, Raised e)
  | CloseFails e => (tr, Raised e)
  end.
Proof.
  intros H. unfold make_nws_request, async_with_client, client_get. cbn [run].
  destruct url; try (destruct (health w) eqn:Hh; cbn; rewrite ?Hh; reflexivity).
  exfalso. apply (H s). reflexivity.
Qed.

(** A fetch that returns a value was made with a client that opens and
    closes. *)
Lemma fetch_ok_healthy (w : upstream) (tr tr' : list event) (url v : json) :
  run w tr (make_nws_request rt url) = (tr', Ok v) -> health w = Healthy.
Proof.
  assert (Hns : forall u : json, (forall s, u <> JStr s) ->
                  run w tr (make_nws_request rt u) = (tr', Ok v) ->
                  health w = Healthy).
  { intros u Hu. rewrite (run_make_nws_request_not_str w tr u Hu).
    destruct (health w); [reflexivity | discriminate | discriminate]. }
  destruct url; try (apply Hns; discriminate).
  rewrite run_make_nws_request.
  destruct (health w); [reflexivity | discriminate |].
  destruct (url_refused rt s); discriminate.
Qed.

(** A fetch of an accepted str that returns a value has sent its one
    request. *)
Lemma fetch_ok_trace (w : upstream) (tr tr' : list event) (url : string)
  (v : json) :
  run w tr (make_nws_request rt (JStr url)) = (tr', Ok v) ->
  url_refused rt url = false ->
  tr' = (tr ++ [EvGet (nws_request url)])%list.
Proof.
  intros H Hu. rewrite run_make_nws_request, Hu in H.
  destruct (health w); [| discriminate | discriminate].
  injection H as H _. symmetry. exact H.
Qed.

Lemma run_get_alerts (w : upstream) (tr tr' : list event) (state : string)
  (data : json) :
  run w (tr ++ [EvPrint ("Getting alerts for " ++ state)])%list
      (make_nws_request rt (JStr (alerts_url state))) = (tr', Ok data) ->
  run w tr (get_alerts rt state) = (tr', alerts_of rt data).
Proof.
  intros H. unfold get_alerts. cbn [run]. rewrite run_bind, H. apply run_lift.
Qed.

Lemma run_get_forecast_points (w : upstream) (tr tr1 : list event)
  (latitude longitude : spec_float) (points_data : json) :
  run w tr (make_nws_request rt (JStr (points_url rt latitude longitude)))
    = (tr1, Ok points_data) ->
  run w tr (get_forecast rt latitude longitude) =
  if negb (py_truthy points_data) then (tr1, Ok MSG_POINTS_UNAVAILABLE)
  else match forecast_url_of points_data with
       | Raised e => (tr1, Raised e)
       | Ok forecast_url =>
           match run w tr1 (make_nws_request rt forecast_url) with
           | (tr2, Raised e) => (tr2, Raised e)
           | (tr2, Ok forecast_data) =>
               if negb (py_truthy forecast_data)
               then (tr2, Ok MSG_FORECAST_UNAVAILABLE)
               else (tr2, forecast_of rt forecast_data)
           end
       end.
Proof.
  intros H. unfold get_forecast. rewrite run_bind, H.
  destruct (negb (py_truthy points_data)); [reflexivity |].
  rewrite run_bind, run_lift.
  destruct (forecast_url_of points_data) as [fu | e]; [| reflexivity].
  rewrite run_bind.
  destruct (run w tr1 (make_nws_request rt fu)) as [tr2 [fd | e]]; [| reflexivity].
  destruct (negb (py_truthy fd)); [reflexivity | apply run_lift].
Qed.

End FetchFacts.

(** ** The fetch helper *)

(** C4, as the code has it. Whatever the URL, when the client of line 20
    opens and closes without a fault [make_nws_request] absorbs every
    fault derived from [Exception]: a URL that [httpx] refuses, a
    transport fault, a timeout, a status outside 200..299 and a body that
    does not decode all give None without raising, and a 2xx response with
    a decodable body gives the decoded value.  A fault that does not derive
    from [Exception] (a cancellation) is not absorbed and reaches the
    caller. *)
Theorem make_nws_request_absorbs (rt : PyRuntime) (w : upstream)
  (tr : list event) (url : string) :
  health w = Healthy ->
  (url_refused rt url = true ->
   run w tr (make_nws_request rt (JStr url)) = (tr, Ok JNull)) /\
  (url_refused rt url = false ->
   fst (run w tr (make_nws_request rt (JStr url)))
     = (tr ++ [EvGet (nws_request url)])%list /\
   (forall e, answer w tr (nws_request url) = Raised e ->
      snd (run w tr (make_nws_request rt (JStr url)))
      = if isinstance_Exception e then Ok JNull else Raised e) /\
   (forall r, answer w tr (nws_request url) = Ok r ->
      ((status_code r < 200 \/ 299 < status_code r)%Z ->
       snd (run w tr (make_nws_request rt (JStr url))) = Ok JNull) /\
      (body_json r = None ->
       snd (run w tr (make_nws_request rt (JStr url))) = Ok JNull) /\
      (forall j, (200 <= status_code r <= 299)%Z -> body_json r = Some j ->
                 snd (run w tr (make_nws_request rt (JStr url))) = Ok j))).
Proof.
  intros Hh. rewrite run_make_nws_request, Hh. split.
  - intros ->. reflexivity.
  - intros ->. cbn [fst snd]. split; [reflexivity |]. split.
    + intros e ->. reflexivity.
    + intros r ->. cbn [fetched].
      destruct ((200 <=? status_code r)%Z && (status_code r <=? 299)%Z) eqn:Hs.
      * apply andb_prop in Hs. destruct Hs as [Hlo Hhi].
        apply Z.leb_le in Hlo. apply Z.leb_le in Hhi.
        split; [intros [H | H]; lia |].
        split; [intros ->; reflexivity |].
        intros j _ ->. reflexivity.
      * split; [reflexivity |]. split; [reflexivity |].
        intros j [Hlo Hhi] _. apply Z.leb_le in Hlo. apply Z.leb_le in Hhi.
        rewrite Hlo, Hhi in Hs. discriminate.
Qed.

Lemma make_nws_request_absorbs_witness :
  health upstream_down = Healthy /\
  url_refused sample_rt "https://api.weather.gov/alerts/active/area/CA" = false /\
  run upstream_down []
      (make_nws_request sample_rt (JStr "https://api.weather.gov/alerts/active/area/CA"))
  = ([EvGet (nws_request "https://api.weather.gov/alerts/active/area/CA")], Ok JNull).
Proof.
  split; [reflexivity |]. split; [reflexivity |].
  destruct (proj2 (make_nws_request_absorbs sample_rt upstream_down []
                     "https://api.weather.gov/alerts/active/area/CA" eq_refl)
              eq_refl) as [Htr [Hf _]].
  rewrite (surjective_pairing (run upstream_down [] _)), Htr.
  rewrite (Hf TransportError eq_refl). reflexivity.
Defined.

(** [make_nws_request] raises to its caller at two inputs: a cancellation
    while the request is awaited is not absorbed, and a client that cannot
    be set up fails before the [try] is entered. *)
Lemma make_nws_request_raises :
  run upstream_cancelled []
      (make_nws_request sample_rt (JStr "https://api.weather.gov/alerts/active/area/CA"))
  = ([EvGet (nws_request "https://api.weather.gov/alerts/active/area/CA")],
     Raised CancelledError) /\
  run upstream_no_client []
      (make_nws_request sample_rt (JStr "https://api.weather.gov/alerts/active/area/CA"))
  = ([], Raised ImportError).
Proof. split; reflexivity. Qed.

(** ** The two tools *)

Section ToolClaims.

Context (rt : PyRuntime).

Lemma alerts_of_absent : alerts_of rt JNull = Ok MSG_ALERTS_UNAVAILABLE.
Proof. reflexivity. Qed.

Lemma alerts_of_no_features (o : list (string * json)) :
  assoc_lookup "features" o = None ->
  alerts_of rt (JObj o) = Ok MSG_ALERTS_UNAVAILABLE.
Proof.
  intros H. unfold alerts_of. destruct o as [| kv o']; [reflexivity |].
  cbn [py_truthy negb py_contains rbind]. rewrite H. reflexivity.
Qed.

Lemma alerts_of_empty_features (o : list (string * json)) :
  assoc_lookup "features" o = Some (JList []) ->
  alerts_of rt (JObj o) = Ok MSG_NO_ALERTS.
Proof.
  intros H. unfold alerts_of. destruct o as [| kv o']; [discriminate H |].
  cbn [py_truthy negb py_contains py_getitem rbind]. rewrite H. reflexivity.
Qed.

(** C1. Whatever the alerts fetch returns: on absence, or on a mapping
    without the key 'features', [get_alerts] returns "Unable to fetch alerts
    or no alerts found."; on a mapping whose 'features' is the empty
    sequence it returns "No active alerts for this state."; and the two
    strings differ. *)
Theorem get_alerts_zero_alert_messages (w : upstream) (tr tr' : list event)
  (state : string) (data : json) :
  run w (tr ++ [EvPrint ("Getting alerts for " ++ state)])%list
      (make_nws_request rt (JStr (alerts_url state))) = (tr', Ok data) ->
  ((data = JNull \/ exists o, data = JObj o /\ assoc_lookup "features" o = None) ->
   run w tr (get_alerts rt state)
     = (tr', Ok "Unable to fetch alerts or no alerts found.")) /\
  ((exists o, data = JObj o /\ assoc_lookup "features" o = Some (JList [])) ->
   run w tr (get_alerts rt state) = (tr', Ok "No active alerts for this state.")) /\
  "Unable to fetch alerts or no alerts found." <> "No active alerts for this state.".
Proof.
  intros Hfetch. rewrite (run_get_alerts rt w tr tr' state data Hfetch).
  split; [| split].
  - intros [-> | [o [-> Ho]]].
    + rewrite alerts_of_absent. reflexivity.
    + rewrite (alerts_of_no_features o Ho). reflexivity.
  - intros [o [-> Ho]]. rewrite (alerts_of_empty_features o Ho). reflexivity.
  - discriminate.
Qed.

(** C5. Whatever the coordinates, when the points fetch returns absence
    [get_forecast] returns "Unable to fetch forecast data for this
    location." and the run has made the points request and no other: the
    forecast fetch is not attempted. *)
Theorem get_forecast_stops_after_points (w : upstream) (tr tr' : list event)
  (latitude longitude : spec_float) :
  run w tr (make_nws_request rt (JStr (points_url rt latitude longitude)))
    = (tr', Ok JNull) ->
  run w tr (get_forecast rt latitude longitude)
    = (tr', Ok "Unable to fetch forecast data for this location.") /\
  gets tr' = (gets tr ++ [nws_request (points_url rt latitude longitude)])%list.
Proof.
  intros Hfetch. split.
  - rewrite (run_get_forecast_points rt w tr tr' latitude longitude JNull Hfetch).
    reflexivity.
  - rewrite (fetch_ok_trace rt w tr tr' _ _ Hfetch (points_url_ok rt latitude longitude)).
    rewrite gets_app. reflexivity.
Qed.

(** A value without 'properties.forecast' makes line 63 raise. *)
Lemma forecast_url_of_lacking (v : json) :
  has_forecast_url v = false ->
  exists e, forecast_url_of v = Raised e /\
            (e = TypeError \/ e = KeyError (KStr "properties") \/
             e = KeyError (KStr "forecast")).
Proof.
  intros H. unfold forecast_url_of.
  destruct v as [| | | | | | o]; try (exists TypeError; split; [reflexivity | auto]).
  cbn [py_getitem has_forecast_url] in *.
  destruct (assoc_lookup "properties" o) as [props |]; cbn [rbind].
  - destruct props as [| | | | | | po];
      try (exists TypeError; split; [reflexivity | auto]).
    cbn [py_getitem has_key] in *.
    destruct (assoc_lookup "forecast" po); [discriminate H |].
    exists (KeyError (KStr "forecast")). split; [reflexivity | auto].
  - exists (KeyError (KStr "properties")). split; [reflexivity | auto].
Qed.

(** C9. When the points fetch succeeds with a body that decodes to the empty
    mapping, [get_forecast] returns "Unable to fetch forecast data for this
    location." instead of raising; a points mapping without
    'properties.forecast' makes it raise exactly when the mapping is not
    empty. *)
Theorem get_forecast_empty_points_mapping (w : upstream) (tr : list event)
  (latitude longitude : spec_float) (r : response) (o : list (string * json)) :
  w tr (nws_request (points_url rt latitude longitude)) = Ok r ->
  (200 <= status_code r <= 299)%Z ->
  body_json r = Some (JObj o) ->
  has_forecast_url (JObj o) = false ->
  (o = [] ->
   snd (run w tr (get_forecast rt latitude longitude))
     = Ok "Unable to fetch forecast data for this location.") /\
  (o <> [] ->
   exists e, snd (run w tr (get_forecast rt latitude longitude)) = Raised e).
Proof.
  intros Hw [Hlo Hhi] Hbody Hnone.
  assert (Hfetch : run w tr (make_nws_request rt (JStr (points_url rt latitude longitude)))
                   = ((tr ++ [EvGet (nws_request (points_url rt latitude longitude))])%list,
                      Ok (JObj o))).
  { destruct (answered_inv w tr _ _ Hw) as [Hh Ha].
    rewrite (run_make_nws_request_sent rt w tr _ Hh (points_url_ok rt latitude longitude)).
    rewrite Ha. unfold fetched.
    apply Z.leb_le in Hlo. apply Z.leb_le in Hhi. rewrite Hlo, Hhi, Hbody.
    reflexivity. }
  rewrite (run_get_forecast_points rt w tr _ latitude longitude _ Hfetch).
  split.
  - intros ->. reflexivity.
  - intros Hne. destruct o as [| kv o']; [contradiction |].
    cbn [py_truthy negb].
    destruct (forecast_url_of_lacking _ Hnone) as [e [He _]].
    rewrite He. exists e. reflexivity.
Qed.

(** C10. When both fetches succeed and 'properties.periods' of the forecast
    response is the empty list, [get_forecast] returns the empty string. *)
Theorem get_forecast_no_periods (w : upstream) (tr tr1 tr2 : list event)
  (latitude longitude : spec_float)
  (points_data forecast_url forecast_data properties : json) :
  run w tr (make_nws_request rt (JStr (points_url rt latitude longitude)))
    = (tr1, Ok points_data) ->
  py_truthy points_data = true ->
  forecast_url_of points_data = Ok forecast_url ->
  run w tr1 (make_nws_request rt forecast_url) = (tr2, Ok forecast_data) ->
  py_getitem forecast_data "properties" = Ok properties ->
  py_getitem properties "periods" = Ok (JList []) ->
  run w tr (get_forecast rt latitude longitude) = (tr2, Ok EmptyString).
Proof.
  intros H1 Ht Hu H2 Hp Hq.
  rewrite (run_get_forecast_points rt w tr tr1 latitude longitude _ H1).
  rewrite Ht, Hu, H2. cbn [negb].
  assert (Htruthy : py_truthy forecast_data = true).
  { destruct forecast_data as [| | | | | | o]; try discriminate Hp.
    destruct o; [discriminate Hp | reflexivity]. }
  rewrite Htruthy. cbn [negb]. unfold forecast_of. rewrite Hp.
  cbn [rbind]. rewrite Hq. reflexivity.
Qed.

End ToolClaims.

(** ** Forecast blocks *)

Section ForecastBlocks.

Context (rt : PyRuntime).

Lemma has_key_getitem (k : string) (v : json) :
  has_key k v = true -> exists x, py_getitem v k = Ok x.
Proof.
  destruct v as [| | | | | | o]; try discriminate. simpl.
  destruct (assoc_lookup k o) as [x |]; [eauto | discriminate].
Qed.

Lemma format_period_well_formed (period : json) :
  well_formed_period period = true ->
  exists b, format_period rt period = Ok b.
Proof.
  unfold well_formed_period, period_fields. cbn [forallb]. intros H.
  repeat (apply andb_prop in H; let Hk := fresh "Hk" in destruct H as [Hk H]).
  unfold format_period.
  repeat match goal with
         | Hk : has_key _ _ = true |- _ =>
             apply has_key_getitem in Hk; destruct Hk as [? Hk]; rewrite Hk
         end.
  cbn [rbind]. eauto.
Qed.

Lemma forecast_of_periods (forecast_data properties : json) (ps : list json) :
  py_getitem forecast_data "properties" = Ok properties ->
  py_getitem properties "periods" = Ok (JList ps) ->
  forecast_of rt forecast_data =
  match rmap (format_period rt) (firstn 5 ps) with
  | Ok forecasts => Ok (str_join SEP forecasts)
  | Raised e => Raised e
  end.
Proof.
  intros Hp Hq. unfold forecast_of. rewrite Hp. cbn [rbind]. rewrite Hq.
  reflexivity.
Qed.

Lemma getitem_truthy (v x : json) (k : string) :
  py_getitem v k = Ok x -> py_truthy v = true.
Proof.
  destruct v as [| | | | | | o]; try discriminate.
  destruct o; [discriminate | reflexivity].
Qed.

(** The block of a plain period has the four lines of the layout, none of
    them a separator. *)
Lemma format_period_plain (period : json) (b : string) :
  plain_period rt period = true ->
  format_period rt period = Ok b ->
  length (split_lines b) = 4 /\ sep_lines b = 0.
Proof.
  unfold plain_period, period_fields. cbn [forallb]. intros H.
  repeat (apply andb_prop in H; let Hk := fresh "Hk" in destruct H as [Hk H]).
  clear H. unfold format_period.
  destruct (py_getitem period "name") as [v1 |]; [| discriminate].
  destruct (py_getitem period "temperature") as [v2 |]; [| discriminate].
  destruct (py_getitem period "temperatureUnit") as [v3 |]; [| discriminate].
  destruct (py_getitem period "windSpeed") as [v4 |]; [| discriminate].
  destruct (py_getitem period "windDirection") as [v5 |]; [| discriminate].
  destruct (py_getitem period "detailedForecast") as [v6 |]; [| discriminate].
  cbn [rbind]. intros Hb. injection Hb as Hb. subst b.
  apply period_block_lines; assumption.
Qed.

Lemma plain_blocks (ps : list json) (blocks : list string) :
  forallb (plain_period rt) ps = true ->
  Forall2 (fun p b => format_period rt p = Ok b) ps blocks ->
  total (map sep_lines blocks) = 0 /\
  Forall (fun b => length (split_lines b) = 4) blocks.
Proof.
  intros Hplain HF. induction HF as [| p b ps bs Hpb HF IH].
  - split; [reflexivity | constructor].
  - cbn [forallb] in Hplain. apply andb_prop in Hplain.
    destruct Hplain as [Hp Hps].
    destruct (format_period_plain p b Hp Hpb) as [H4 H0].
    destruct (IH Hps) as [Ht Hall].
    split; [cbn [map total]; rewrite H0, Ht; reflexivity |].
    constructor; assumption.
Qed.

(** C3. When both fetches succeed and 'properties.periods' is a list of n
    well-formed periods, [get_forecast] returns the join of the blocks of
    the first min(n, 5) periods: never more than five blocks, exactly n
    when n < 5, and five blocks with four separators between them when
    n = 7.  The join adds min(n, 5) - 1 lines of three dashes; when the
    printed fields hold no line feed, every block has four lines and the
    output holds no other line of three dashes. *)
Theorem get_forecast_at_most_five (w : upstream) (tr tr1 tr2 : list event)
  (latitude longitude : spec_float)
  (points_data forecast_url forecast_data properties : json) (ps : list json) :
  run w tr (make_nws_request rt (JStr (points_url rt latitude longitude)))
    = (tr1, Ok points_data) ->
  py_truthy points_data = true ->
  forecast_url_of points_data = Ok forecast_url ->
  run w tr1 (make_nws_request rt forecast_url) = (tr2, Ok forecast_data) ->
  py_getitem forecast_data "properties" = Ok properties ->
  py_getitem properties "periods" = Ok (JList ps) ->
  forallb well_formed_period ps = true ->
  exists blocks,
    Forall2 (fun p b => format_period rt p = Ok b) (firstn 5 ps) blocks /\
    run w tr (get_forecast rt latitude longitude)
      = (tr2, Ok (str_join SEP blocks)) /\
    length blocks = Nat.min (length ps) 5 /\
    length blocks <= 5 /\
    (length ps < 5 -> length blocks = length ps) /\
    (length ps = 7 -> length blocks = 5) /\
    sep_lines (str_join SEP blocks)
      = Nat.min (length ps) 5 - 1 + total (map sep_lines blocks) /\
    (forallb (plain_period rt) ps = true ->
     Forall (fun b => length (split_lines b) = 4) blocks /\
     sep_lines (str_join SEP blocks) = Nat.min (length ps) 5 - 1 /\
     (length ps = 7 -> sep_lines (str_join SEP blocks) = 4)).
Proof.
  intros H1 Ht Hu H2 Hp Hq Hwf.
  destruct (rmap_total (format_period rt) (firstn 5 ps)) as [blocks [Hmap Hlen]].
  { intros p Hin. apply format_period_well_formed.
    apply (proj1 (forallb_forall _ _) (forallb_firstn _ 5 ps Hwf)). exact Hin. }
  rewrite length_firstn, Nat.min_comm in Hlen.
  exists blocks.
  assert (HF := rmap_Forall2 _ _ _ Hmap).
  split; [exact HF |]. split.
  { rewrite (run_get_forecast_points rt w tr tr1 latitude longitude _ H1).
    rewrite Ht, Hu, H2, (getitem_truthy _ _ _ Hp). cbn [negb].
    rewrite (forecast_of_periods _ _ _ Hp Hq), Hmap. reflexivity. }
  split; [exact Hlen |]. split; [lia |]. split; [lia |]. split; [lia |].
  assert (Hsep : sep_lines (str_join SEP blocks)
                 = Nat.min (length ps) 5 - 1 + total (map sep_lines blocks)).
  { rewrite sep_lines_join_SEP, Hlen. reflexivity. }
  split; [exact Hsep |].
  intros Hplain.
  destruct (plain_blocks (firstn 5 ps) blocks (forallb_firstn _ 5 ps Hplain) HF)
    as [Hzero Hfour].
  split; [exact Hfour |]. rewrite Hsep, Hzero. split; [lia |].
  intros H7. rewrite H7. reflexivity.
Qed.

End ForecastBlocks.

(** ** Alert blocks *)

Section AlertBlocks.

Context (rt : PyRuntime).

Lemma format_alert_props (o props : list (string * json)) :
  assoc_lookup "properties" o = Some (JObj props) ->
  format_alert rt (JObj o) = Ok (str_join nl (alert_lines rt props)).
Proof.
  intros H. unfold format_alert. cbn [py_getitem]. rewrite H.
  cbn [rbind py_get]. unfold alert_lines, alert_field. cbn [str_join].
  rewrite !str_app_assoc. reflexivity.
Qed.

(** C2, as the code has it. For every alert feature whose 'properties'
    mapping is present, [format_alert] returns without error the five
    entries Event, Area, Severity, Description, Instructions, each
    'Label: value', in this order and joined by single line feeds; a
    missing field is printed as its default.  The result has exactly these
    five lines whenever no printed value holds a line feed, and with all
    five fields absent it is the block of the five defaults. *)
Theorem format_alert_five_entries (o props : list (string * json)) :
  assoc_lookup "properties" o = Some (JObj props) ->
  format_alert rt (JObj o) = Ok (str_join nl (alert_lines rt props)) /\
  (forall k default, assoc_lookup k props = None ->
                     alert_field rt props k default = default) /\
  (forall k default x, assoc_lookup k props = Some x ->
                       alert_field rt props k default = py_str rt x) /\
  (forallb no_newline (alert_lines rt props) = true ->
   split_lines (str_join nl (alert_lines rt props)) = alert_lines rt props /\
   length (split_lines (str_join nl (alert_lines rt props))) = 5) /\
  (forallb (fun k => match assoc_lookup k props with
                     | None => true
                     | Some _ => false
                     end) alert_keys = true ->
   format_alert rt (JObj o)
   = Ok ("Event: Unknown" ++ nl ++
         "Area: Unknown" ++ nl ++
         "Severity: Unknown" ++ nl ++
         "Description: No description available" ++ nl ++
         "Instructions: No specific instructions provided")).
Proof.
  intros H. split; [apply (format_alert_props o props H) |].
  split; [intros k d Hk; unfold alert_field; rewrite Hk; reflexivity |].
  split; [intros k d x Hk; unfold alert_field; rewrite Hk; reflexivity |].
  split.
  - intros Hplain.
    assert (E : split_lines (str_join nl (alert_lines rt props))
                = alert_lines rt props)
      by (apply split_lines_join_nl; exact Hplain).
    split; [exact E | rewrite E; reflexivity].
  - unfold alert_keys. cbn [forallb]. intros Habs.
    rewrite (format_alert_props o props H).
    unfold alert_lines, alert_field.
    destruct (assoc_lookup "event" props); [discriminate |].
    destruct (assoc_lookup "areaDesc" props); [discriminate |].
    destruct (assoc_lookup "severity" props); [discriminate |].
    destruct (assoc_lookup "description" props); [discriminate |].
    destruct (assoc_lookup "instruction" props); [discriminate |].
    reflexivity.
Qed.


End AlertBlocks.

(** ** Required fields of the forecast path *)

Section RequiredFields.

Context (rt : PyRuntime).

Lemma format_period_ill_formed (period : json) :
  well_formed_period period = false ->
  exists e, format_period rt period = Raised e /\ period_fault e.
Proof.
  unfold period_fault.
  destruct period as [| | | | | | o];
    try (intros _; exists TypeError; split; [reflexivity | left; reflexivity]).
  unfold well_formed_period, period_fields, format_period.
  cbn [forallb has_key py_getitem].
  destruct (assoc_lookup "name" o);
    [| intros _; eexists; split; [reflexivity | right; eexists; split;
                                   [| reflexivity]; simpl; tauto]].
  destruct (assoc_lookup "temperature" o);
    [| intros _; eexists; split; [reflexivity | right; eexists; split;
                                   [| reflexivity]; simpl; tauto]].
  destruct (assoc_lookup "temperatureUnit" o);
    [| intros _; eexists; split; [reflexivity | right; eexists; split;
                                   [| reflexivity]; simpl; tauto]].
  destruct (assoc_lookup "windSpeed" o);
    [| intros _; eexists; split; [reflexivity | right; eexists; split;
                                   [| reflexivity]; simpl; tauto]].
  destruct (assoc_lookup "windDirection" o);
    [| intros _; eexists; split; [reflexivity | right; eexists; split;
                                   [| reflexivity]; simpl; tauto]].
  destruct (assoc_lookup "detailedForecast" o);
    [| intros _; eexists; split; [reflexivity | right; eexists; split;
                                   [| reflexivity]; simpl; tauto]].
  discriminate.
Qed.

Lemma rmap_format_period_fault (ps : list json) :
  forallb well_formed_period ps = false ->
  exists e, rmap (format_period rt) ps = Raised e /\ period_fault e.
Proof.
  induction ps as [| p ps IH]; [discriminate |].
  cbn [forallb rmap]. destruct (well_formed_period p) eqn:Hp.
  - cbn [andb]. intros Hps. destruct (IH Hps) as [e [He Hf]].
    destruct (format_period_well_formed rt p Hp) as [b ->].
    rewrite He. eauto.
  - intros _. destruct (format_period_ill_formed p Hp) as [e [-> Hf]]. eauto.
Qed.

(** C6, as the code has it. When the points response is truthy but lacks
    'properties.forecast', [get_forecast] raises a key or type fault at the
    lookup and goes no further; when both fetches succeed and one of the
    first five periods lacks one of the six fields, it raises a key or type
    fault as well.  In both cases the fault is the outcome of the run: it
    is neither caught, nor replaced by a default, nor turned into a
    message. *)
Theorem get_forecast_required_fields (w : upstream) (tr tr1 : list event)
  (latitude longitude : spec_float) (points_data : json) :
  run w tr (make_nws_request rt (JStr (points_url rt latitude longitude)))
    = (tr1, Ok points_data) ->
  py_truthy points_data = true ->
  (has_forecast_url points_data = false ->
   exists e,
     run w tr (get_forecast rt latitude longitude) = (tr1, Raised e) /\
     (e = TypeError \/ e = KeyError (KStr "properties") \/
      e = KeyError (KStr "forecast"))) /\
  (forall tr2 forecast_url forecast_data properties ps,
     forecast_url_of points_data = Ok forecast_url ->
     run w tr1 (make_nws_request rt forecast_url) = (tr2, Ok forecast_data) ->
     py_getitem forecast_data "properties" = Ok properties ->
     py_getitem properties "periods" = Ok (JList ps) ->
     forallb well_formed_period (firstn 5 ps) = false ->
     exists e,
       run w tr (get_forecast rt latitude longitude) = (tr2, Raised e) /\
       period_fault e).
Proof.
  intros H1 Ht.
  rewrite (run_get_forecast_points rt w tr tr1 latitude longitude _ H1), Ht.
  cbn [negb]. split.
  - intros Hlack. destruct (forecast_url_of_lacking _ Hlack) as [e [-> He]].
    exists e. split; [reflexivity | exact He].
  - intros tr2 fu fd props ps Hu H2 Hp Hq Hill.
    rewrite Hu, H2, (getitem_truthy _ _ _ Hp). cbn [negb].
    rewrite (forecast_of_periods rt _ _ _ Hp Hq).
    destruct (rmap_format_period_fault _ Hill) as [e [-> He]].
    exists e. split; [reflexivity | exact He].
Qed.

End RequiredFields.

(** ** The claims at sample inputs *)

Lemma get_alerts_zero_alert_messages_witness :
  let w := upstream_const (JObj [("features", JList [])]) in
  let tr' := [EvPrint "Getting alerts for CA"; EvGet (nws_request (alerts_url "CA"))] in
  run w [EvPrint "Getting alerts for CA"] (make_nws_request sample_rt (JStr (alerts_url "CA")))
    = (tr', Ok (JObj [("features", JList [])])) /\
  run w [] (get_alerts sample_rt "CA") = (tr', Ok "No active alerts for this state.").
Proof.
  split; [reflexivity |].
  apply (proj1 (proj2 (get_alerts_zero_alert_messages sample_rt
           (upstream_const (JObj [("features", JList [])])) [] _ "CA" _ eq_refl))).
  exists [("features", JList [])]. split; reflexivity.
Defined.

Lemma get_forecast_stops_after_points_witness :
  run upstream_down []
      (make_nws_request sample_rt (JStr (points_url sample_rt sample_lat sample_lon)))
    = (sample_trace1, Ok JNull) /\
  run upstream_down [] (get_forecast sample_rt sample_lat sample_lon)
    = (sample_trace1, Ok "Unable to fetch forecast data for this location.") /\
  gets sample_trace1 = [nws_request (points_url sample_rt sample_lat sample_lon)].
Proof.
  split; [reflexivity |].
  apply (get_forecast_stops_after_points sample_rt upstream_down [] sample_trace1
           sample_lat sample_lon eq_refl).
Defined.

Lemma get_forecast_empty_points_mapping_witness :
  let r := {| status_code := 200; body_json := Some (JObj []) |} in
  upstream_const (JObj []) [] (nws_request (points_url sample_rt sample_lat sample_lon))
    = Ok r /\
  (200 <= status_code r <= 299)%Z /\
  body_json r = Some (JObj []) /\
  has_forecast_url (JObj []) = false /\
  snd (run (upstream_const (JObj [])) [] (get_forecast sample_rt sample_lat sample_lon))
    = Ok "Unable to fetch forecast data for this location.".
Proof.
  cbv zeta.
  assert (Hs : (200 <= 200 <= 299)%Z) by lia.
  split; [reflexivity |]. split; [exact Hs |]. split; [reflexivity |].
  split; [reflexivity |].
  apply (proj1 (get_forecast_empty_points_mapping sample_rt (upstream_const (JObj []))
                  [] sample_lat sample_lon _ [] eq_refl Hs eq_refl eq_refl)).
  reflexivity.
Defined.

Lemma get_forecast_no_periods_witness :
  let w := upstream_two sample_points (sample_forecast []) in
  run w [] (make_nws_request sample_rt (JStr (points_url sample_rt sample_lat sample_lon)))
    = (sample_trace1, Ok sample_points) /\
  py_truthy sample_points = true /\
  forecast_url_of sample_points = Ok (JStr sample_forecast_url) /\
  run w sample_trace1 (make_nws_request sample_rt (JStr sample_forecast_url))
    = (sample_trace2, Ok (sample_forecast [])) /\
  py_getitem (sample_forecast []) "properties" = Ok (JObj [("periods", JList [])]) /\
  py_getitem (JObj [("periods", JList [])]) "periods" = Ok (JList []) /\
  run w [] (get_forecast sample_rt sample_lat sample_lon) = (sample_trace2, Ok EmptyString).
Proof.
  cbv zeta. repeat (split; [reflexivity |]).
  apply (get_forecast_no_periods sample_rt
           (upstream_two sample_points (sample_forecast [])) [] sample_trace1
           sample_trace2 sample_lat sample_lon sample_points
           (JStr sample_forecast_url) (sample_forecast [])
           (JObj [("periods", JList [])])); reflexivity.
Defined.

Lemma get_forecast_at_most_five_witness :
  let w := upstream_two sample_points (sample_forecast seven_periods) in
  run w [] (make_nws_request sample_rt (JStr (points_url sample_rt sample_lat sample_lon)))
    = (sample_trace1, Ok sample_points) /\
  run w sample_trace1 (make_nws_request sample_rt (JStr sample_forecast_url))
    = (sample_trace2, Ok (sample_forecast seven_periods)) /\
  forallb well_formed_period seven_periods = true /\
  exists blocks,
    run w [] (get_forecast sample_rt sample_lat sample_lon)
      = (sample_trace2, Ok (str_join SEP blocks)) /\
    length blocks = 5 /\
    sep_lines (str_join SEP blocks) = 4.
Proof.
  cbv zeta. repeat (split; [reflexivity |]).
  destruct (get_forecast_at_most_five sample_rt
              (upstream_two sample_points (sample_forecast seven_periods)) []
              sample_trace1 sample_trace2 sample_lat sample_lon sample_points
              (JStr sample_forecast_url) (sample_forecast seven_periods)
              (JObj [("periods", JList seven_periods)]) seven_periods
              eq_refl eq_refl eq_refl eq_refl eq_refl eq_refl eq_refl)
    as [blocks [_ [Hrun [_ [_ [_ [H7 [_ Hplain]]]]]]]].
  exists blocks. split; [exact Hrun |]. split; [exact (H7 eq_refl) |].
  exact (proj2 (proj2 (Hplain eq_refl)) eq_refl).
Defined.

Lemma format_alert_five_entries_witness :
  assoc_lookup "properties" [("properties", JObj [])] = Some (JObj []) /\
  format_alert sample_rt (JObj [("properties", JObj [])])
  = Ok ("Event: Unknown" ++ nl ++
        "Area: Unknown" ++ nl ++
        "Severity: Unknown" ++ nl ++
        "Description: No description available" ++ nl ++
        "Instructions: No specific instructions provided").
Proof.
  split; [reflexivity |].
  apply (proj2 (proj2 (proj2 (proj2
           (format_alert_five_entries sample_rt [("properties", JObj [])] []
              eq_refl))))).
  reflexivity.
Defined.

(** With a description of two lines the block has six lines, not five. *)
Lemma format_alert_six_lines :
  exists block,
    format_alert sample_rt sample_alert_two_line_description = Ok block /\
    length (split_lines block) = 6 /\
    In "Move to higher ground." (split_lines block).
Proof.
  eexists. split; [reflexivity |]. split; [reflexivity |].
  vm_compute. tauto.
Qed.


Lemma get_forecast_required_fields_witness :
  let points_data := JObj [("properties", JObj [("gridId", JStr "TOP")])] in
  let w := upstream_const points_data in
  run w [] (make_nws_request sample_rt (JStr (points_url sample_rt sample_lat sample_lon)))
    = (sample_trace1, Ok points_data) /\
  py_truthy points_data = true /\
  has_forecast_url points_data = false /\
  exists e,
    run w [] (get_forecast sample_rt sample_lat sample_lon)
      = (sample_trace1, Raised e) /\
    (e = TypeError \/ e = KeyError (KStr "properties") \/
     e = KeyError (KStr "forecast")).
Proof.
  cbv zeta. repeat (split; [reflexivity |]).
  apply (proj1 (get_forecast_required_fields sample_rt
                  (upstream_const (JObj [("properties", JObj [("gridId", JStr "TOP")])]))
                  [] sample_trace1 sample_lat sample_lon _ eq_refl eq_refl)).
  reflexivity.
Defined.

(** Two inputs with a required field absent and no fault: an empty points
    mapping gives the message of the failed points fetch, and a sixth
    period without fields is never read. *)
Lemma required_field_absent_without_fault :
  (has_forecast_url (JObj []) = false /\
   run (upstream_const (JObj [])) [] (get_forecast sample_rt sample_lat sample_lon)
     = (sample_trace1, Ok "Unable to fetch forecast data for this location.")) /\
  (forallb well_formed_period (five_periods ++ [JObj []])%list = false /\
   exists text,
     run (upstream_two sample_points (sample_forecast (five_periods ++ [JObj []])%list))
         [] (get_forecast sample_rt sample_lat sample_lon)
       = (sample_trace2, Ok text)).
Proof.
  split; split; try reflexivity. eexists. reflexivity.
Qed.

(** ** The prompt template *)

Lemma str_app_inv_head (p a b : string) : p ++ a = p ++ b -> a = b.
Proof.
  induction p as [| c p IH]; simpl; intros H; [exact H |].
  injection H as H. exact (IH H).
Qed.

Lemma substring_all (s : string) : substring 0 (String.length s) s = s.
Proof. induction s as [| c s IH]; simpl; congruence. Qed.

Lemma substring_skip (p s : string) :
  substring (String.length p) (String.length s) (p ++ s) = s.
Proof.
  induction p as [| c p IH]; simpl; [apply substring_all | exact IH].
Qed.

(** X1. [plan_the_evening] puts a fixed header line and one blank line in
    front of the text and leaves the text's own lines as they are. *)
Theorem plan_the_evening_lines (text : string) :
  split_lines (plan_the_evening text)
  = "Plan the evening based on the weather forecast:" :: EmptyString
      :: split_lines text.
Proof.
  unfold plan_the_evening.
  rewrite split_lines_app_nl.
  change (nl ++ text) with (EmptyString ++ nl ++ text).
  rewrite split_lines_app_nl. reflexivity.
Qed.

(** X2. The text given to [plan_the_evening] can be read back from its
    result: it is what follows the first 49 characters, so two texts give
    the same prompt only when they are equal. *)
Theorem plan_the_evening_keeps_text (text : string) :
  String.length (plan_the_evening text) = 49 + String.length text /\
  substring 49 (String.length text) (plan_the_evening text) = text /\
  (forall text', plan_the_evening text = plan_the_evening text' -> text = text').
Proof.
  split; [reflexivity |]. split.
  - apply (substring_skip
             ("Plan the evening based on the weather forecast:" ++ nl ++ nl) text).
  - intros text' H.
    apply (str_app_inv_head
             ("Plan the evening based on the weather forecast:" ++ nl ++ nl)).
    exact H.
Qed.

(** ** More on the alerts tool *)

Section AlertsTool.

Context (rt : PyRuntime).

Lemma run_get_alerts_any (w : upstream) (tr : list event) (state : string) :
  run w tr (get_alerts rt state)
  = match run w (tr ++ [EvPrint ("Getting alerts for " ++ state)])%list
              (make_nws_request rt (JStr (alerts_url state))) with
    | (tr', Ok data) => (tr', alerts_of rt data)
    | (tr', Raised e) => (tr', Raised e)
    end.
Proof.
  unfold get_alerts. cbn [run]. rewrite run_bind.
  destruct (run w _ (make_nws_request rt _)) as [tr' [data | e]];
    [apply run_lift | reflexivity].
Qed.

(** X3. Whatever the upstream does, a call of [get_alerts] prints one line
    and then sends at most one request, with no second attempt: none when
    the client cannot be opened or [httpx] refuses the URL, and otherwise
    exactly one GET of the area URL of the state, with the User-Agent and
    Accept headers and a timeout of 30 seconds. *)
Theorem get_alerts_one_request (w : upstream) (tr : list event) (state : string) :
  fst (run w tr (get_alerts rt state))
  = (tr ++ EvPrint ("Getting alerts for " ++ state)
        :: (if match health w with OpenFails _ => true | _ => false end
               || url_refused rt ("https://api.weather.gov/alerts/active/area/" ++ state)
            then []
            else [EvGet {| req_url := "https://api.weather.gov/alerts/active/area/" ++ state;
                           req_headers := [("User-Agent", "weather-app/1.0");
                                           ("Accept", "application/geo+json")];
                           req_timeout := 30 |}]))%list.
Proof.
  rewrite run_get_alerts_any, run_make_nws_request.
  change (alerts_url state) with ("https://api.weather.gov/alerts/active/area/" ++ state).
  destruct (health w) as [| e | e]; cbn [orb].
  - destruct (url_refused rt _); cbn [fst].
    + cbn. reflexivity.
    + destruct (fetched _); cbn [fst]; rewrite <- app_assoc; reflexivity.
  - reflexivity.
  - destruct (url_refused rt _); cbn [fst]; [reflexivity |].
    rewrite <- app_assoc. reflexivity.
Qed.

(** A fault derived from [Exception], a status outside 200..299, a body
    that does not decode and a body that decodes to a falsy value all leave
    the caller of [make_nws_request] with a falsy value. *)
Lemma fetched_falsy (o : result response) :
  (exists e, o = Raised e /\ isinstance_Exception e = true) \/
  (exists r, o = Ok r /\
             ((status_code r < 200 \/ 299 < status_code r)%Z \/
              body_json r = None \/
              exists j, body_json r = Some j /\ py_truthy j = false)) ->
  exists data, fetched o = Ok data /\ py_truthy data = false.
Proof.
  intros [[e [-> He]] | [r [-> Hr]]]; cbn [fetched].
  - rewrite He. exists JNull. split; reflexivity.
  - destruct ((200 <=? status_code r)%Z && (status_code r <=? 299)%Z) eqn:Hs;
      [| exists JNull; split; reflexivity].
    destruct Hr as [Hbad | [Hnone | [j [Hj Hfalsy]]]].
    + apply andb_prop in Hs. destruct Hs as [Hlo Hhi].
      apply Z.leb_le in Hlo. apply Z.leb_le in Hhi. lia.
    + rewrite Hnone. exists JNull. split; reflexivity.
    + rewrite Hj. exists j. split; [reflexivity | exact Hfalsy].
Qed.

(** The same, read off the outcome of the exchange. *)
Lemma exchange_falsy (w : upstream) (tr : list event) (rq : request) :
  (exists e, w tr rq = Raised e /\ isinstance_Exception e = true) \/
  (exists r, w tr rq = Ok r /\
             ((status_code r < 200 \/ 299 < status_code r)%Z \/
              body_json r = None \/
              exists j, body_json r = Some j /\ py_truthy j = false)) ->
  health w = Healthy /\
  exists data, fetched (answer w tr rq) = Ok data /\ py_truthy data = false.
Proof.
  intros H.
  assert (Hh : health w = Healthy).
  { destruct H as [[e [H _]] | [r [H _]]]; exact (proj1 (answered_inv w tr rq _ H)). }
  split; [exact Hh |]. apply fetched_falsy.
  destruct H as [[e [H He]] | [r [H Hr]]].
  - left. exists e. split; [exact (proj2 (answered_inv w tr rq _ H)) | exact He].
  - right. exists r. split; [exact (proj2 (answered_inv w tr rq _ H)) | exact Hr].
Qed.


(** X5. A 'features' entry that is present but falsy without being an
    empty list (null, zero, false, an empty str or mapping) is taken for
    "no alerts": [get_alerts] returns "No active alerts for this state.". *)
Theorem get_alerts_falsy_features (w : upstream) (tr tr' : list event)
  (state : string) (o : list (string * json)) (features : json) :
  run w (tr ++ [EvPrint ("Getting alerts for " ++ state)])%list
      (make_nws_request rt (JStr (alerts_url state))) = (tr', Ok (JObj o)) ->
  assoc_lookup "features" o = Some features ->
  py_truthy features = false ->
  run w tr (get_alerts rt state) = (tr', Ok "No active alerts for this state.").
Proof.
  intros Hfetch Ho Hfalsy. rewrite (run_get_alerts rt w tr tr' state _ Hfetch).
  unfold alerts_of. destruct o as [| kv o']; [discriminate Ho |].
  cbn [py_truthy negb py_contains py_getitem rbind]. rewrite Ho.
  cbn [negb rbind]. rewrite Hfalsy. reflexivity.
Qed.

Lemma alerts_of_features (o : list (string * json)) (f : json) (fs : list json) :
  assoc_lookup "features" o = Some (JList (f :: fs)) ->
  alerts_of rt (JObj o)
  = match rmap (format_alert rt) (f :: fs) with
    | Ok alerts => Ok (str_join SEP alerts)
    | Raised e => Raised e
    end.
Proof.
  intros Ho. unfold alerts_of. destruct o as [| kv o']; [discriminate Ho |].
  cbn [py_truthy negb py_contains py_getitem rbind]. rewrite Ho.
  cbn [negb rbind py_truthy py_iter].
  destruct (rmap (format_alert rt) (f :: fs)); reflexivity.
Qed.

Lemma with_properties_formats (f : json) :
  (exists fo props, f = JObj fo /\
                    assoc_lookup "properties" fo = Some (JObj props)) ->
  exists b, format_alert rt f = Ok b.
Proof.
  intros [fo [props [-> H]]]. rewrite (format_alert_props rt fo props H). eauto.
Qed.

(** X6. When 'features' is a non-empty list of features that each carry a
    'properties' mapping, [get_alerts] returns the join of their blocks:
    one block per feature, in the order received, duplicates included, with
    one separator line between two blocks. *)
Theorem get_alerts_blocks_in_order (w : upstream) (tr tr' : list event)
  (state : string) (o : list (string * json)) (fs : list json) :
  run w (tr ++ [EvPrint ("Getting alerts for " ++ state)])%list
      (make_nws_request rt (JStr (alerts_url state))) = (tr', Ok (JObj o)) ->
  assoc_lookup "features" o = Some (JList fs) ->
  fs <> [] ->
  (forall f, In f fs ->
             exists fo props, f = JObj fo /\
                              assoc_lookup "properties" fo = Some (JObj props)) ->
  exists blocks,
    run w tr (get_alerts rt state) = (tr', Ok (str_join SEP blocks)) /\
    Forall2 (fun f b => format_alert rt f = Ok b) fs blocks /\
    length blocks = length fs /\
    sep_lines (str_join SEP blocks)
    = length fs - 1 + total (map sep_lines blocks).
Proof.
  intros Hfetch Ho Hne Hall.
  destruct (rmap_total (format_alert rt) fs) as [blocks [Hmap Hlen]].
  { intros f Hin. apply with_properties_formats. exact (Hall f Hin). }
  exists blocks. split; [| split; [| split]].
  - rewrite (run_get_alerts rt w tr tr' state _ Hfetch).
    destruct fs as [| f fs']; [contradiction |].
    rewrite (alerts_of_features o f fs' Ho), Hmap. reflexivity.
  - apply rmap_Forall2. exact Hmap.
  - exact Hlen.
  - rewrite sep_lines_join_SEP, Hlen. reflexivity.
Qed.

Lemma rmap_app_fault {A B : Type} (f : A -> result B) (pre post : list A)
  (bad : A) (e : exn) :
  (forall a, In a pre -> exists b, f a = Ok b) ->
  f bad = Raised e ->
  rmap f (pre ++ bad :: post)%list = Raised e.
Proof.
  intros Hpre Hbad. induction pre as [| a pre IH]; cbn [app rmap].
  - rewrite Hbad. reflexivity.
  - destruct (Hpre a (or_introl eq_refl)) as [b ->].
    rewrite IH; [reflexivity |]. intros a' Ha'. apply Hpre. right. exact Ha'.
Qed.

(** X7. One feature without the key 'properties' makes the whole call
    fail: when the features before it format, [get_alerts] raises the
    key-lookup fault for 'properties' and returns no block at all, however
    many well-formed features come before or after. *)
Theorem get_alerts_one_bad_feature (w : upstream) (tr tr' : list event)
  (state : string) (o bad : list (string * json)) (pre post : list json) :
  run w (tr ++ [EvPrint ("Getting alerts for " ++ state)])%list
      (make_nws_request rt (JStr (alerts_url state))) = (tr', Ok (JObj o)) ->
  assoc_lookup "features" o = Some (JList (pre ++ JObj bad :: post)%list) ->
  (forall f, In f pre ->
             exists fo props, f = JObj fo /\
                              assoc_lookup "properties" fo = Some (JObj props)) ->
  assoc_lookup "properties" bad = None ->
  run w tr (get_alerts rt state) = (tr', Raised (KeyError (KStr "properties"))).
Proof.
  intros Hfetch Ho Hpre Hbad.
  rewrite (run_get_alerts rt w tr tr' state _ Hfetch).
  assert (Hfault : rmap (format_alert rt) (pre ++ JObj bad :: post)%list
                   = Raised (KeyError (KStr "properties"))).
  { apply rmap_app_fault.
    - intros f Hin. apply with_properties_formats. exact (Hpre f Hin).
    - unfold format_alert. cbn [py_getitem]. rewrite Hbad. reflexivity. }
  destruct (pre ++ JObj bad :: post)%list as [| f fs] eqn:E.
  - destruct pre; discriminate E.
  - rewrite (alerts_of_features o f fs Ho), Hfault. reflexivity.
Qed.

End AlertsTool.

Section AlertsResults.

Context (rt : PyRuntime).

Lemma format_alert_starts (feature : json) (b : string) :
  format_alert rt feature = Ok b -> starts_with "Event: " b.
Proof.
  unfold format_alert, starts_with.
  destruct (py_getitem feature "properties") as [props | e]; [| discriminate].
  cbn [rbind].
  destruct props as [| | | | | | po]; try discriminate.
  cbn [py_get rbind]. intros H. injection H as <-. eexists. reflexivity.
Qed.

Lemma str_join_starts (p sep b : string) (bs : list string) :
  starts_with p b -> starts_with p (str_join sep (b :: bs)).
Proof.
  intros [rest ->]. destruct bs as [| b' bs].
  - exists rest. reflexivity.
  - exists (rest ++ sep ++ str_join sep (b' :: bs)).
    change (str_join sep ((p ++ rest) :: b' :: bs))
      with ((p ++ rest) ++ sep ++ str_join sep (b' :: bs)).
    apply str_app_assoc.
Qed.

Lemma rmap_format_alert_starts (f : json) (fs : list json) (alerts : list string) :
  rmap (format_alert rt) (f :: fs) = Ok alerts ->
  starts_with "Event: " (str_join SEP alerts).
Proof.
  cbn [rmap]. destruct (format_alert rt f) as [b | e] eqn:Hb; [| discriminate].
  destruct (rmap (format_alert rt) fs) as [bs | e]; [| discriminate].
  intros H. injection H as <-. apply str_join_starts.
  exact (format_alert_starts f b Hb).
Qed.

(** X8. Whatever was fetched, a text returned by [get_alerts] is one of the
    two fixed messages or starts with "Event: "; in particular it is never
    empty, unlike the text of [get_forecast]. *)
Theorem get_alerts_result_shape (w : upstream) (tr tr' : list event)
  (state text : string) :
  run w tr (get_alerts rt state) = (tr', Ok text) ->
  (text = "Unable to fetch alerts or no alerts found." \/
   text = "No active alerts for this state." \/
   starts_with "Event: " text) /\
  text <> EmptyString.
Proof.
  rewrite run_get_alerts_any.
  destruct (run w _ (make_nws_request rt _)) as [tr'' [data | e]];
    intros H; [| discriminate H]. injection H as _ H.
  assert (Hshape : text = "Unable to fetch alerts or no alerts found." \/
                   text = "No active alerts for this state." \/
                   starts_with "Event: " text).
  { unfold alerts_of in H.
    destruct (py_truthy data) eqn:Ht; cbn [negb rbind] in H;
      [| injection H as <-; left; reflexivity].
    destruct data as [| b | z | f | s | l | o]; try discriminate H;
      cbn [py_contains rbind py_getitem] in H.
    - destruct (negb (str_contains "features" s));
        [injection H as <-; left; reflexivity | discriminate H].
    - destruct (negb (existsb _ l));
        [injection H as <-; left; reflexivity | discriminate H].
    - destruct (assoc_lookup "features" o) as [x |]; cbn [negb rbind] in H;
        [| injection H as <-; left; reflexivity].
      destruct (py_truthy x) eqn:Hx; cbn [negb] in H;
        [| injection H as <-; right; left; reflexivity].
      right. right.
      destruct x as [| xb | xz | xf | xs | xl | xo]; try discriminate H;
        cbn [py_iter rbind] in H.
      + destruct xs as [| c xs]; [discriminate Hx |]. discriminate H.
      + destruct xl as [| f fs]; [discriminate Hx |].
        destruct (rmap (format_alert rt) (f :: fs)) as [alerts | e] eqn:Hmap;
          [| discriminate H].
        cbn [rbind] in H. injection H as <-.
        exact (rmap_format_alert_starts f fs alerts Hmap).
      + destruct xo as [| kv xo]; [discriminate Hx |]. discriminate H. }
  split; [exact Hshape |].
  destruct Hshape as [-> | [-> | [rest ->]]]; discriminate.
Qed.

(** X9. A body that decodes to a truthy number or boolean makes
    [get_alerts] raise a type fault at the test for 'features': the call
    gives no text. *)
Theorem get_alerts_scalar_body (w : upstream) (tr tr' : list event)
  (state : string) (data : json) :
  run w (tr ++ [EvPrint ("Getting alerts for " ++ state)])%list
      (make_nws_request rt (JStr (alerts_url state))) = (tr', Ok data) ->
  is_scalar data = true ->
  py_truthy data = true ->
  run w tr (get_alerts rt state) = (tr', Raised TypeError).
Proof.
  intros Hfetch Hs Ht. rewrite (run_get_alerts rt w tr tr' state _ Hfetch).
  unfold alerts_of. rewrite Ht.
  destruct data; try discriminate Hs; reflexivity.
Qed.

End AlertsResults.

(** ** More on the forecast tool *)

Section ForecastTool.

Context (rt : PyRuntime).

(** X10. Whatever the upstream does, [get_forecast] prints nothing and
    sends at most two requests.  When the client cannot be opened it sends
    none and raises the client's fault; otherwise it sends the points
    request first and at most one request more, and a second request is
    sent only after a truthy points response and goes to the str found at
    its 'properties.forecast'. *)
Theorem get_forecast_at_most_two_requests (w : upstream) (tr : list event)
  (latitude longitude : spec_float) :
  (exists e, health w = OpenFails e /\
             run w tr (get_forecast rt latitude longitude) = (tr, Raised e)) \/
  exists rest,
    fst (run w tr (get_forecast rt latitude longitude))
    = (tr ++ map EvGet (nws_request (points_url rt latitude longitude) :: rest))%list /\
    (rest = [] \/
     exists tr1 points_data u,
       run w tr (make_nws_request rt (JStr (points_url rt latitude longitude)))
         = (tr1, Ok points_data) /\
       py_truthy points_data = true /\
       forecast_url_of points_data = Ok (JStr u) /\
       rest = [nws_request u]).
Proof.
  pose proof (run_make_nws_request rt w tr (points_url rt latitude longitude)) as H1.
  rewrite points_url_ok in H1.
  destruct (health w) as [| e | e] eqn:Hh.
  - right.
    destruct (fetched (answer w tr (nws_request (points_url rt latitude longitude))))
      as [pd | e].
    + rewrite (run_get_forecast_points rt w tr _ latitude longitude pd H1).
      destruct (py_truthy pd) eqn:Ht; cbn [negb];
        [| exists []; split; [reflexivity | left; reflexivity]].
      destruct (forecast_url_of pd) as [fu | e] eqn:Hu;
        [| exists []; split; [reflexivity | left; reflexivity]].
      assert (Hns : forall v : json, (forall s, v <> JStr s) ->
                fst (let (tr2, r) := run w (tr ++ [EvGet (nws_request
                                       (points_url rt latitude longitude))])%list
                                      (make_nws_request rt v) in
                     match r with
                     | Ok fd => if negb (py_truthy fd)
                                then (tr2, Ok MSG_FORECAST_UNAVAILABLE)
                                else (tr2, forecast_of rt fd)
                     | Raised e => (tr2, Raised e)
                     end)
                = (tr ++ [EvGet (nws_request (points_url rt latitude longitude))])%list).
      { intros v Hv. rewrite (run_make_nws_request_not_str rt w _ v Hv), Hh.
        reflexivity. }
      destruct fu as [| b | z | f | u | l | o];
        try (exists []; split; [apply Hns; discriminate | left; reflexivity]).
      rewrite run_make_nws_request, Hh.
      destruct (url_refused rt u).
      * exists []. split; [reflexivity | left; reflexivity].
      * exists [nws_request u]. split.
        -- cbn [map]. rewrite <- app_assoc. cbn [app].
           destruct (fetched _) as [fd | e]; [| reflexivity].
           destruct (negb (py_truthy fd)); reflexivity.
        -- right. exists (tr ++ [EvGet (nws_request (points_url rt latitude longitude))])%list,
                    pd, u.
           repeat split; assumption.
    + exists []. split; [| left; reflexivity].
      unfold get_forecast. rewrite run_bind, H1. reflexivity.
  - left. exists e. split; [reflexivity |].
    unfold get_forecast. rewrite run_bind, H1. reflexivity.
  - right. exists []. split; [| left; reflexivity].
    unfold get_forecast. rewrite run_bind, H1. reflexivity.
Qed.

(** X11. When the points response is fine and the forecast URL is refused
    by [httpx], or the forecast request meets a fault derived from
    [Exception], a status outside 200..299, or a body that does not decode
    or decodes to a falsy value, [get_forecast] returns "Unable to fetch
    detailed forecast."; the second request has been sent unless the URL
    was refused. *)
Theorem get_forecast_second_fetch_fails (w : upstream) (tr tr1 : list event)
  (latitude longitude : spec_float) (points_data : json) (u : string) :
  run w tr (make_nws_request rt (JStr (points_url rt latitude longitude)))
    = (tr1, Ok points_data) ->
  py_truthy points_data = true ->
  forecast_url_of points_data = Ok (JStr u) ->
  url_refused rt u = true \/
  (exists e, w tr1 (nws_request u) = Raised e /\ isinstance_Exception e = true) \/
  (exists r, w tr1 (nws_request u) = Ok r /\
             ((status_code r < 200 \/ 299 < status_code r)%Z \/
              body_json r = None \/
              exists j, body_json r = Some j /\ py_truthy j = false)) ->
  run w tr (get_forecast rt latitude longitude)
  = ((if url_refused rt u then tr1 else tr1 ++ [EvGet (nws_request u)])%list,
     Ok "Unable to fetch detailed forecast.").
Proof.
  intros H1 Ht Hu Ho.
  rewrite (run_get_forecast_points rt w tr tr1 latitude longitude _ H1).
  rewrite Ht, Hu. cbn [negb].
  rewrite run_make_nws_request, (fetch_ok_healthy rt w tr tr1 _ _ H1).
  destruct (url_refused rt u) eqn:Hr; [reflexivity |].
  destruct Ho as [Ho | Ho]; [discriminate Ho |].
  destruct (exchange_falsy w tr1 _ Ho) as [_ [fd [-> Hfalsy]]].
  rewrite Hfalsy. reflexivity.
Qed.

(** X12. When 'properties.forecast' of the points response is not a str
    (null, a number, a list, a mapping), no second request is sent and
    [get_forecast] returns "Unable to fetch detailed forecast.": the type
    fault of the refused URL is absorbed by the fetch helper. *)
Theorem get_forecast_url_not_str (w : upstream) (tr tr1 : list event)
  (latitude longitude : spec_float) (points_data forecast_url : json) :
  run w tr (make_nws_request rt (JStr (points_url rt latitude longitude)))
    = (tr1, Ok points_data) ->
  py_truthy points_data = true ->
  forecast_url_of points_data = Ok forecast_url ->
  (forall u, forecast_url <> JStr u) ->
  run w tr (get_forecast rt latitude longitude)
  = (tr1, Ok "Unable to fetch detailed forecast.").
Proof.
  intros H1 Ht Hu Hns.
  rewrite (run_get_forecast_points rt w tr tr1 latitude longitude _ H1).
  rewrite Ht, Hu. cbn [negb].
  rewrite (run_make_nws_request_not_str rt w tr1 forecast_url Hns).
  rewrite (fetch_ok_healthy rt w tr tr1 _ _ H1). reflexivity.
Qed.

Lemma forecast_of_lacking (forecast_data : json) :
  has_periods forecast_data = false ->
  exists e, forecast_of rt forecast_data = Raised e /\
            (e = TypeError \/ e = KeyError (KStr "properties") \/
             e = KeyError (KStr "periods")).
Proof.
  intros H. unfold forecast_of.
  destruct forecast_data as [| | | | | | o];
    try (exists TypeError; split; [reflexivity | auto]).
  cbn [py_getitem has_periods] in *.
  destruct (assoc_lookup "properties" o) as [props |]; cbn [rbind].
  - destruct props as [| | | | | | po];
      try (exists TypeError; split; [reflexivity | auto]).
    cbn [py_getitem has_key] in *.
    destruct (assoc_lookup "periods" po); [discriminate H |].
    exists (KeyError (KStr "periods")). split; [reflexivity | auto].
  - exists (KeyError (KStr "properties")). split; [reflexivity | auto].
Qed.

(** X13. When both fetches succeed and the forecast response is truthy but
    has no 'properties.periods', [get_forecast] raises a key or type fault
    after its two requests: it gives no text. *)
Theorem get_forecast_missing_periods (w : upstream) (tr tr1 tr2 : list event)
  (latitude longitude : spec_float)
  (points_data forecast_url forecast_data : json) :
  run w tr (make_nws_request rt (JStr (points_url rt latitude longitude)))
    = (tr1, Ok points_data) ->
  py_truthy points_data = true ->
  forecast_url_of points_data = Ok forecast_url ->
  run w tr1 (make_nws_request rt forecast_url) = (tr2, Ok forecast_data) ->
  py_truthy forecast_data = true ->
  has_periods forecast_data = false ->
  exists e,
    run w tr (get_forecast rt latitude longitude) = (tr2, Raised e) /\
    (e = TypeError \/ e = KeyError (KStr "properties") \/
     e = KeyError (KStr "periods")).
Proof.
  intros H1 Ht Hu H2 Ht2 Hlack.
  rewrite (run_get_forecast_points rt w tr tr1 latitude longitude _ H1).
  rewrite Ht, Hu, H2, Ht2. cbn [negb].
  destruct (forecast_of_lacking _ Hlack) as [e [-> He]].
  exists e. split; [reflexivity | exact He].
Qed.

(** X14. The text of a forecast depends on the first five periods only: two
    forecast responses whose period lists agree on their first five entries
    give the same outcome, whatever follows, well formed or not. *)
Theorem forecast_reads_first_five (forecast_data forecast_data' : json)
  (properties properties' : json) (ps ps' : list json) :
  py_getitem forecast_data "properties" = Ok properties ->
  py_getitem properties "periods" = Ok (JList ps) ->
  py_getitem forecast_data' "properties" = Ok properties' ->
  py_getitem properties' "periods" = Ok (JList ps') ->
  firstn 5 ps = firstn 5 ps' ->
  forecast_of rt forecast_data = forecast_of rt forecast_data'.
Proof.
  intros Hp Hq Hp' Hq' Hfive.
  rewrite (forecast_of_periods rt _ _ _ Hp Hq).
  rewrite (forecast_of_periods rt _ _ _ Hp' Hq'), Hfive. reflexivity.
Qed.

(** X15. The block of a period with its six fields is the name followed by
    a colon, then the lines Temperature (value, degree sign, unit), Wind
    (speed, space, direction) and Forecast, each indented by two spaces;
    these are exactly its lines when no printed field holds a line feed. *)
Theorem format_period_layout (period v1 v2 v3 v4 v5 v6 : json) :
  py_getitem period "name" = Ok v1 ->
  py_getitem period "temperature" = Ok v2 ->
  py_getitem period "temperatureUnit" = Ok v3 ->
  py_getitem period "windSpeed" = Ok v4 ->
  py_getitem period "windDirection" = Ok v5 ->
  py_getitem period "detailedForecast" = Ok v6 ->
  let block_of_lines :=
    [py_str rt v1 ++ ":";
     "  Temperature: " ++ py_str rt v2 ++ deg ++ py_str rt v3;
     "  Wind: " ++ py_str rt v4 ++ " " ++ py_str rt v5;
     "  Forecast: " ++ py_str rt v6] in
  format_period rt period = Ok (str_join nl block_of_lines) /\
  (forallb no_newline block_of_lines = true ->
   split_lines (str_join nl block_of_lines) = block_of_lines).
Proof.
  intros H1 H2 H3 H4 H5 H6. cbv zeta. split.
  - unfold format_period. rewrite H1, H2, H3, H4, H5, H6.
    cbn [rbind str_join]. rewrite !str_app_assoc. reflexivity.
  - intros Hplain. apply split_lines_join_nl. exact Hplain.
Qed.

End ForecastTool.

(** ** More on the formatter and the fetch helper *)

Section FormatterEdges.

Context (rt : PyRuntime).

(** X16. The default of a field stands in for a missing key only: an
    'instruction' that is present with the value null is printed as
    "None", so the block ends with the line "Instructions: None". *)
Theorem format_alert_null_instruction (o props : list (string * json)) :
  assoc_lookup "properties" o = Some (JObj props) ->
  assoc_lookup "instruction" props = Some JNull ->
  exists head,
    format_alert rt (JObj o) = Ok (head ++ nl ++ "Instructions: None") /\
    head = str_join nl
             ["Event: " ++ alert_field rt props "event" "Unknown";
              "Area: " ++ alert_field rt props "areaDesc" "Unknown";
              "Severity: " ++ alert_field rt props "severity" "Unknown";
              "Description: " ++
                alert_field rt props "description" "No description available"].
Proof.
  intros Ho Hnull. eexists. split; [| reflexivity].
  rewrite (format_alert_props rt o props Ho). unfold alert_lines.
  unfold alert_field at 5. rewrite Hnull. cbn [str_join py_str py_repr].
  rewrite !str_app_assoc. reflexivity.
Qed.

(** X17. [format_alert] fails on a misshapen feature: a feature that is not
    a mapping raises a type fault at the lookup of 'properties', and a
    'properties' entry that is not a mapping (null, a list, a str, a
    number) raises an attribute fault at the first [get]. *)
Theorem format_alert_wrong_shape (feature : json) :
  ((forall o, feature <> JObj o) -> format_alert rt feature = Raised TypeError) /\
  (forall o props,
     feature = JObj o ->
     assoc_lookup "properties" o = Some props ->
     (forall po, props <> JObj po) ->
     format_alert rt feature = Raised AttributeError).
Proof.
  split.
  - intros H. destruct feature as [| | | | | | o]; try reflexivity.
    exfalso. exact (H o eq_refl).
  - intros o props -> Ho Hnm. unfold format_alert. cbn [py_getitem].
    rewrite Ho. cbn [rbind].
    destruct props as [| | | | | | po]; try reflexivity.
    exfalso. exact (Hnm po eq_refl).
Qed.

(** X18. A 'features' entry that is truthy but not a list (a mapping, a
    str, a number, true) makes [get_alerts] raise a type fault: its items,
    when it has any, are strs and not features. *)
Theorem get_alerts_features_not_list (w : upstream) (tr tr' : list event)
  (state : string) (o : list (string * json)) (features : json) :
  run w (tr ++ [EvPrint ("Getting alerts for " ++ state)])%list
      (make_nws_request rt (JStr (alerts_url state))) = (tr', Ok (JObj o)) ->
  assoc_lookup "features" o = Some features ->
  py_truthy features = true ->
  (forall l, features <> JList l) ->
  run w tr (get_alerts rt state) = (tr', Raised TypeError).
Proof.
  intros Hfetch Ho Ht Hnl. rewrite (run_get_alerts rt w tr tr' state _ Hfetch).
  unfold alerts_of. destruct o as [| kv o']; [discriminate Ho |].
  cbn [py_truthy negb py_contains py_getitem rbind]. rewrite Ho.
  cbn [negb rbind]. rewrite Ht. cbn [negb].
  destruct features as [| b | z | f | s | l | fo]; try reflexivity.
  - destruct s as [| c s]; [discriminate Ht | reflexivity].
  - exfalso. exact (Hnl l eq_refl).
  - destruct fo as [| [k x] fo]; [discriminate Ht | reflexivity].
Qed.

End FormatterEdges.


(** ** The further properties at sample inputs *)

Lemma plan_the_evening_keeps_text_witness :
  plan_the_evening "Rain after 8pm." = plan_the_evening "Rain after 8pm." /\
  substring 49 15 (plan_the_evening "Rain after 8pm.") = "Rain after 8pm.".
Proof.
  split; [reflexivity |].
  exact (proj1 (proj2 (plan_the_evening_keeps_text "Rain after 8pm."))).
Defined.


Lemma get_alerts_falsy_features_witness :
  let w := upstream_const (JObj [("features", JNull)]) in
  run w [EvPrint "Getting alerts for CA"] (make_nws_request sample_rt (JStr (alerts_url "CA")))
    = (sample_alerts_trace, Ok (JObj [("features", JNull)])) /\
  assoc_lookup "features" [("features", JNull)] = Some JNull /\
  py_truthy JNull = false /\
  run w [] (get_alerts sample_rt "CA")
    = (sample_alerts_trace, Ok "No active alerts for this state.").
Proof.
  cbv zeta. repeat (split; [reflexivity |]).
  apply (get_alerts_falsy_features sample_rt
           (upstream_const (JObj [("features", JNull)])) [] sample_alerts_trace
           "CA" [("features", JNull)] JNull); reflexivity.
Defined.

Lemma three_alerts_have_properties (f : json) :
  In f three_alerts ->
  exists fo props, f = JObj fo /\ assoc_lookup "properties" fo = Some (JObj props).
Proof.
  intros [<- | [<- | [<- | []]]]; eexists; eexists; split; reflexivity.
Defined.

Lemma get_alerts_blocks_in_order_witness :
  let w := upstream_const (JObj [("features", JList three_alerts)]) in
  run w [EvPrint "Getting alerts for CA"] (make_nws_request sample_rt (JStr (alerts_url "CA")))
    = (sample_alerts_trace, Ok (JObj [("features", JList three_alerts)])) /\
  three_alerts <> [] /\
  exists blocks,
    run w [] (get_alerts sample_rt "CA")
      = (sample_alerts_trace, Ok (str_join SEP blocks)) /\
    length blocks = 3.
Proof.
  cbv zeta. split; [reflexivity |].
  assert (Hne : three_alerts <> []) by discriminate.
  split; [exact Hne |].
  destruct (get_alerts_blocks_in_order sample_rt
              (upstream_const (JObj [("features", JList three_alerts)])) []
              sample_alerts_trace "CA" [("features", JList three_alerts)]
              three_alerts eq_refl eq_refl Hne three_alerts_have_properties)
    as [blocks [Hrun [_ [Hlen _]]]].
  exists blocks. split; [exact Hrun | exact Hlen].
Defined.

Lemma get_alerts_one_bad_feature_witness :
  let features := ([sample_alert "Wind Advisory" "Marin"]
                   ++ JObj [("id", JStr "urn:oid:2.49.0.1.840.0")]
                   :: [sample_alert "Flood Watch" "Napa"])%list in
  let w := upstream_const (JObj [("features", JList features)]) in
  run w [EvPrint "Getting alerts for CA"] (make_nws_request sample_rt (JStr (alerts_url "CA")))
    = (sample_alerts_trace, Ok (JObj [("features", JList features)])) /\
  assoc_lookup "properties" [("id", JStr "urn:oid:2.49.0.1.840.0")] = None /\
  run w [] (get_alerts sample_rt "CA")
    = (sample_alerts_trace, Raised (KeyError (KStr "properties"))).
Proof.
  cbv zeta. repeat (split; [reflexivity |]).
  apply (get_alerts_one_bad_feature sample_rt _ [] sample_alerts_trace "CA"
           [("features",
             JList ([sample_alert "Wind Advisory" "Marin"]
                    ++ JObj [("id", JStr "urn:oid:2.49.0.1.840.0")]
                    :: [sample_alert "Flood Watch" "Napa"])%list)]
           [("id", JStr "urn:oid:2.49.0.1.840.0")]
           [sample_alert "Wind Advisory" "Marin"]
           [sample_alert "Flood Watch" "Napa"]).
  - reflexivity.
  - reflexivity.
  - intros f [<- | []]. eexists; eexists; split; reflexivity.
  - reflexivity.
Defined.

Lemma get_alerts_result_shape_witness :
  run (upstream_const (JObj [("features", JList [])])) [] (get_alerts sample_rt "CA")
    = (sample_alerts_trace, Ok "No active alerts for this state.") /\
  "No active alerts for this state." <> EmptyString.
Proof.
  split; [reflexivity |].
  exact (proj2 (get_alerts_result_shape sample_rt
                  (upstream_const (JObj [("features", JList [])])) []
                  sample_alerts_trace "CA" "No active alerts for this state."
                  eq_refl)).
Defined.

Lemma get_alerts_scalar_body_witness :
  run (upstream_const (JInt 7)) [EvPrint "Getting alerts for CA"]
      (make_nws_request sample_rt (JStr (alerts_url "CA"))) = (sample_alerts_trace, Ok (JInt 7)) /\
  is_scalar (JInt 7) = true /\
  py_truthy (JInt 7) = true /\
  run (upstream_const (JInt 7)) [] (get_alerts sample_rt "CA")
    = (sample_alerts_trace, Raised TypeError).
Proof.
  repeat (split; [reflexivity |]).
  apply (get_alerts_scalar_body sample_rt (upstream_const (JInt 7)) []
           sample_alerts_trace "CA" (JInt 7)); reflexivity.
Defined.

Lemma get_forecast_second_fetch_fails_witness :
  let w := upstream_then sample_points
             (Ok {| status_code := 503; body_json := None |}) in
  run w [] (make_nws_request sample_rt (JStr (points_url sample_rt sample_lat sample_lon)))
    = (sample_trace1, Ok sample_points) /\
  py_truthy sample_points = true /\
  forecast_url_of sample_points = Ok (JStr sample_forecast_url) /\
  (exists r, w sample_trace1 (nws_request sample_forecast_url) = Ok r /\
             (status_code r < 200 \/ 299 < status_code r)%Z) /\
  run w [] (get_forecast sample_rt sample_lat sample_lon)
    = (sample_trace2, Ok "Unable to fetch detailed forecast.").
Proof.
  cbv zeta. repeat (split; [reflexivity |]).
  assert (Hbad : (503 < 200 \/ 299 < 503)%Z) by (right; lia).
  split; [eexists; split; [reflexivity | exact Hbad] |].
  apply (get_forecast_second_fetch_fails sample_rt
           (upstream_then sample_points
              (Ok {| status_code := 503; body_json := None |}))
           [] sample_trace1 sample_lat sample_lon sample_points
           sample_forecast_url eq_refl eq_refl eq_refl).
  right. right. eexists. split; [reflexivity |]. left. exact Hbad.
Defined.

Lemma get_forecast_url_not_str_witness :
  let points_data := JObj [("properties", JObj [("forecast", JNull)])] in
  run (upstream_const points_data) []
      (make_nws_request sample_rt (JStr (points_url sample_rt sample_lat sample_lon)))
    = (sample_trace1, Ok points_data) /\
  py_truthy points_data = true /\
  forecast_url_of points_data = Ok JNull /\
  (forall u, JNull <> JStr u) /\
  run (upstream_const points_data) [] (get_forecast sample_rt sample_lat sample_lon)
    = (sample_trace1, Ok "Unable to fetch detailed forecast.").
Proof.
  cbv zeta. repeat (split; [reflexivity |]).
  assert (Hns : forall u, JNull <> JStr u) by discriminate.
  split; [exact Hns |].
  exact (get_forecast_url_not_str sample_rt
           (upstream_const (JObj [("properties", JObj [("forecast", JNull)])]))
           [] sample_trace1 sample_lat sample_lon _ JNull eq_refl eq_refl eq_refl
           Hns).
Defined.

Lemma get_forecast_missing_periods_witness :
  let forecast_data := JObj [("properties", JObj [("updated", JStr "2024-05-01")])] in
  let w := upstream_two sample_points forecast_data in
  run w [] (make_nws_request sample_rt (JStr (points_url sample_rt sample_lat sample_lon)))
    = (sample_trace1, Ok sample_points) /\
  run w sample_trace1 (make_nws_request sample_rt (JStr sample_forecast_url))
    = (sample_trace2, Ok forecast_data) /\
  py_truthy forecast_data = true /\
  has_periods forecast_data = false /\
  exists e,
    run w [] (get_forecast sample_rt sample_lat sample_lon)
      = (sample_trace2, Raised e).
Proof.
  cbv zeta. repeat (split; [reflexivity |]).
  destruct (get_forecast_missing_periods sample_rt
              (upstream_two sample_points
                 (JObj [("properties", JObj [("updated", JStr "2024-05-01")])]))
              [] sample_trace1 sample_trace2 sample_lat sample_lon sample_points
              (JStr sample_forecast_url)
              (JObj [("properties", JObj [("updated", JStr "2024-05-01")])])
              eq_refl eq_refl eq_refl eq_refl eq_refl eq_refl)
    as [e [Hrun _]].
  exists e. exact Hrun.
Defined.

Lemma forecast_reads_first_five_witness :
  firstn 5 five_periods = firstn 5 (five_periods ++ [JObj []])%list /\
  forecast_of sample_rt (sample_forecast five_periods)
  = forecast_of sample_rt (sample_forecast (five_periods ++ [JObj []])%list).
Proof.
  split; [reflexivity |].
  apply (forecast_reads_first_five sample_rt
           (sample_forecast five_periods)
           (sample_forecast (five_periods ++ [JObj []])%list)
           (JObj [("periods", JList five_periods)])
           (JObj [("periods", JList (five_periods ++ [JObj []])%list)])
           five_periods (five_periods ++ [JObj []])%list); reflexivity.
Defined.

Lemma format_period_layout_witness :
  py_getitem (sample_period "Tonight") "name" = Ok (JStr "Tonight") /\
  format_period sample_rt (sample_period "Tonight")
  = Ok (str_join nl ["Tonight:"; "  Temperature: 72" ++ deg ++ "F";
                     "  Wind: 5 mph NW"; "  Forecast: Sunny."]).
Proof.
  split; [reflexivity |].
  exact (proj1 (format_period_layout sample_rt (sample_period "Tonight")
                  (JStr "Tonight") (JInt 72) (JStr "F") (JStr "5 mph")
                  (JStr "NW") (JStr "Sunny.")
                  eq_refl eq_refl eq_refl eq_refl eq_refl eq_refl)).
Defined.

Lemma format_alert_null_instruction_witness :
  assoc_lookup "instruction"
    [("event", JStr "Flood Watch"); ("instruction", JNull)] = Some JNull /\
  exists head,
    format_alert sample_rt
      (JObj [("properties",
              JObj [("event", JStr "Flood Watch"); ("instruction", JNull)])])
    = Ok (head ++ nl ++ "Instructions: None").
Proof.
  split; [reflexivity |].
  destruct (format_alert_null_instruction sample_rt
              [("properties",
                JObj [("event", JStr "Flood Watch"); ("instruction", JNull)])]
              [("event", JStr "Flood Watch"); ("instruction", JNull)]
              eq_refl eq_refl) as [head [H _]].
  exists head. exact H.
Defined.

Lemma format_alert_wrong_shape_witness :
  assoc_lookup "properties" [("properties", JNull)] = Some JNull /\
  (forall po, JNull <> JObj po) /\
  format_alert sample_rt (JObj [("properties", JNull)]) = Raised AttributeError.
Proof.
  split; [reflexivity |].
  assert (Hnm : forall po, JNull <> JObj po) by discriminate.
  split; [exact Hnm |].
  exact (proj2 (format_alert_wrong_shape sample_rt (JObj [("properties", JNull)]))
           [("properties", JNull)] JNull eq_refl eq_refl Hnm).
Defined.

Lemma get_alerts_features_not_list_witness :
  let data := JObj [("features", JObj [("type", JStr "Feature")])] in
  run (upstream_const data) [EvPrint "Getting alerts for CA"]
      (make_nws_request sample_rt (JStr (alerts_url "CA"))) = (sample_alerts_trace, Ok data) /\
  py_truthy (JObj [("type", JStr "Feature")]) = true /\
  (forall l, JObj [("type", JStr "Feature")] <> JList l) /\
  run (upstream_const data) [] (get_alerts sample_rt "CA")
    = (sample_alerts_trace, Raised TypeError).
Proof.
  cbv zeta. repeat (split; [reflexivity |]).
  assert (Hnl : forall l, JObj [("type", JStr "Feature")] <> JList l)
    by discriminate.
  split; [exact Hnl |].
  exact (get_alerts_features_not_list sample_rt
           (upstream_const (JObj [("features", JObj [("type", JStr "Feature")])]))
           [] sample_alerts_trace "CA"
           [("features", JObj [("type", JStr "Feature")])]
           (JObj [("type", JStr "Feature")]) eq_refl eq_refl eq_refl Hnl).
Defined.


(** ** The client and the URL *)

(** X20. The client is opened and closed outside the [try]: when it cannot
    be opened, [make_nws_request] raises the client's fault without
    sending anything, and so do [get_alerts], after its printed line, and
    [get_forecast]; when it cannot be closed, [make_nws_request] raises the
    fault of the closing whatever the request met. *)
Theorem client_fault_reaches_caller (rt : PyRuntime) (w : upstream)
  (tr : list event) (e : exn) :
  (health w = OpenFails e ->
   (forall url, run w tr (make_nws_request rt url) = (tr, Raised e)) /\
   (forall state,
      run w tr (get_alerts rt state)
      = ((tr ++ [EvPrint ("Getting alerts for " ++ state)])%list, Raised e)) /\
   (forall latitude longitude,
      run w tr (get_forecast rt latitude longitude) = (tr, Raised e))) /\
  (health w = CloseFails e ->
   forall url, snd (run w tr (make_nws_request rt url)) = Raised e).
Proof.
  assert (Hopen : health w = OpenFails e ->
                  forall tr0 url, run w tr0 (make_nws_request rt url) = (tr0, Raised e)).
  { intros Hh tr0 url.
    destruct url as [| b | z | f | u | l | o];
      try (rewrite run_make_nws_request_not_str by discriminate;
           rewrite Hh; reflexivity).
    rewrite run_make_nws_request, Hh. reflexivity. }
  split.
  - intros Hh. split; [exact (Hopen Hh tr) |]. split.
    + intros state. rewrite run_get_alerts_any, (Hopen Hh). reflexivity.
    + intros latitude longitude. unfold get_forecast.
      rewrite run_bind, (Hopen Hh). reflexivity.
  - intros Hh url.
    destruct url as [| b | z | f | u | l | o];
      try (rewrite run_make_nws_request_not_str by discriminate;
           rewrite Hh; reflexivity).
    rewrite run_make_nws_request, Hh.
    destruct (url_refused rt u); reflexivity.
Qed.

(** X21. A state code that makes the area URL one [httpx] refuses (a
    control character in it) is not sent anywhere: with a client that opens
    and closes, [get_alerts] prints its line, sends no request and returns
    "Unable to fetch alerts or no alerts found.". *)
Theorem get_alerts_refused_url (rt : PyRuntime) (w : upstream)
  (tr : list event) (state : string) :
  health w = Healthy ->
  url_refused rt (alerts_url state) = true ->
  run w tr (get_alerts rt state)
  = ((tr ++ [EvPrint ("Getting alerts for " ++ state)])%list,
     Ok "Unable to fetch alerts or no alerts found.").
Proof.
  intros Hh Hr. rewrite run_get_alerts_any, run_make_nws_request, Hh, Hr.
  reflexivity.
Qed.

Lemma client_fault_reaches_caller_witness :
  health upstream_no_client = OpenFails ImportError /\
  run upstream_no_client [] (get_alerts sample_rt "CA")
    = ([EvPrint "Getting alerts for CA"], Raised ImportError) /\
  run upstream_no_client [] (get_forecast sample_rt sample_lat sample_lon)
    = ([], Raised ImportError).
Proof.
  split; [reflexivity |].
  destruct (proj1 (client_fault_reaches_caller sample_rt upstream_no_client []
                     ImportError) eq_refl) as [_ [Ha Hf]].
  split; [exact (Ha "CA") | exact (Hf sample_lat sample_lon)].
Defined.

Lemma get_alerts_refused_url_witness :
  health (upstream_const (JObj [("features", JList three_alerts)])) = Healthy /\
  url_refused sample_rt (alerts_url state_with_control) = true /\
  run (upstream_const (JObj [("features", JList three_alerts)])) []
      (get_alerts sample_rt state_with_control)
  = ([EvPrint ("Getting alerts for " ++ state_with_control)],
     Ok "Unable to fetch alerts or no alerts found.").
Proof.
  split; [reflexivity |]. split; [reflexivity |].
  exact (get_alerts_refused_url sample_rt
           (upstream_const (JObj [("features", JList three_alerts)])) []
           state_with_control eq_refl eq_refl).
Defined.
